(** * SublimeDeclarativeSettings: the declarative settings mixin

    A shallow embedding of [SublimeDeclarativeSettings.py] (the class
    [DeclarativeSettingsMixin]) and the properties of its settings loader,
    its tree walk and its debounced reload.

    The bound object is a plain Python instance: its attributes live in one
    instance dictionary, which [setattr] writes and attribute reads consult
    before the class.  The host (Sublime Text) is modelled by what the mixin
    asks of it: the readiness flag, [Settings.get], the list of
    [add_on_change] registrations and the list of [set_timeout] requests. *)

From Stdlib Require Import ZArith PrimFloat SpecFloat FloatOps.
From stdpp Require Import gmap strings list.

Local Open Scope string_scope.
Local Open Scope list_scope.

(** ** Python values *)

(** The values entry trees and settings are built from.  [PSettings name] is
    the host's settings object for the file [name]: a reference, whose
    content lives in the host. [PFloat] holds a binary64 float, with the
    arithmetic of the machine. *)
#[local] Unset Elimination Schemes.
Inductive PyVal : Type :=
| PNone
| PEllipsis
| PBool (b : bool)
| PInt (z : Z)
| PFloat (f : float)
| PStr (s : string)
| PTuple (items : list PyVal)
| PList (items : list PyVal)
| PSettings (name : string).
#[local] Set Elimination Schemes.

(** [type(v).__name__] *)
Definition type_name (v : PyVal) : string :=
  match v with
  | PNone => "NoneType"
  | PEllipsis => "ellipsis"
  | PBool _ => "bool"
  | PInt _ => "int"
  | PFloat _ => "float"
  | PStr _ => "str"
  | PTuple _ => "tuple"
  | PList _ => "list"
  | PSettings _ => "Settings"
  end.

(** ** Exceptions *)

Inductive TypeErrorMsg : Type :=
| BadSettingEntry (ty : string) (dump : PyVal)
    (* "Bad setting entry type: {0}\nEntry representation:\n{1}"
         .format(type(entry), pformat(entry)) *)
| HasNoLen (ty : string)
    (* "object of type '{ty}' has no len()" *)
| NotIterable (ty : string)
| NotCallable (ty : string)
| AttributeNameNotString (ty : string)
| UnsupportedOperand (lty rty : string)
| WrongArgumentCount (function : string) (takes given : nat)
| MissingArgument (function argument : string)
| ClassMustBeAClass (ty : string)
    (* "__class__ must be set to a class, not '{ty}' object" *)
| DictMustBeADictionary (ty : string).
    (* "__dict__ must be set to a dictionary, not a '{ty}'" *)

Inductive Exn : Type :=
| TypeError (msg : TypeErrorMsg)
| ValueError (unpacked : nat)        (* wrong number of values to unpack *)
| IndexError
| AttributeError (ty attribute : string)
    (* an object of type ty has no attribute of that name, or the
       attribute cannot be written *)
| OverflowError.                     (* int too large to convert to float *)

Inductive Outcome (A : Type) : Type :=
| Returns (a : A)
| Raises (e : Exn).
Arguments Returns {A} a.
Arguments Raises {A} e.

(** ** Built-ins on values *)

(** The characters of a string, as Python yields them: strings of length 1. *)
Fixpoint chars (s : string) : list PyVal :=
  match s with
  | EmptyString => []
  | String c rest => PStr (String c EmptyString) :: chars rest
  end.

(** [iter(v)]: the items of an iterable value, [None] when [v] is not one. *)
Definition py_iter (v : PyVal) : option (list PyVal) :=
  match v with
  | PStr s => Some (chars s)
  | PTuple items | PList items => Some items
  | _ => None
  end.

(** [len(v)] *)
Definition py_len (v : PyVal) : Outcome nat :=
  match py_iter v with
  | Some items => Returns (length items)
  | None => Raises (TypeError (HasNoLen (type_name v)))
  end.

(** [v[i]] for a natural index. Every value here that has a length is a
    sequence (there is no dict and no set among them), so indexing fails
    only past the end. *)
Definition py_getitem (v : PyVal) (i : nat) : Outcome PyVal :=
  match py_iter v with
  | Some items =>
      match items !! i with
      | Some x => Returns x
      | None => Raises IndexError
      end
  | None => Raises (TypeError (NotIterable (type_name v)))
  end.

(** [isinstance(v, str)] and [isinstance(v, tuple)] *)
Definition is_str (v : PyVal) : bool :=
  match v with PStr _ => true | _ => false end.

Definition is_tuple (v : PyVal) : bool :=
  match v with PTuple _ => true | _ => false end.

(** [a, b, c = v] *)
Definition unpack3 (v : PyVal) : Outcome (PyVal * PyVal * PyVal) :=
  match py_iter v with
  | Some [a; b; c] => Returns (a, b, c)
  | Some items => Raises (ValueError (length items))
  | None => Raises (TypeError (NotIterable (type_name v)))
  end.

(** An int as a float, as the machine converts it for arithmetic with a
    float: rounded to the nearest float, ties to even; [None] when the int
    is too large to convert. *)
Definition float_of_int (z : Z) : option float :=
  match binary_normalize prec emax z 0 false with
  | S754_infinity _ => None
  | sf => Some (SF2Prim sf)
  end.

(** The right operand of [float - v]: [None] when [v] is not a number
    (the subtraction raises [TypeError]); for an int that is too large to
    convert, the [OverflowError] of the conversion. *)
Definition py_number (v : PyVal) : option (Outcome float) :=
  match v with
  | PFloat f => Some (Returns f)
  | PInt z =>
      Some (match float_of_int z with
            | Some f => Returns f
            | None => Raises OverflowError
            end)
  | PBool b => Some (Returns (if b then 1%float else 0%float))
  | _ => None
  end.

(** ** The bound object and the host *)

(** A change handler handed to [add_on_change]: one of the two closures of
    [__reload_settings]. *)
Inductive Handler : Type :=
| SparseHandler (entry : PyVal)
    (* lambda: process_setting_entry(entry) *)
| SharedHandler (entry_tree : PyVal) (install_update_handler sparse : bool).
    (* update_handler, closed over the arguments of __reload_settings *)

(** What an attribute read that is then called found: a method of the
    class, or the value of an instance attribute of that name. *)
Inductive Callee : Type :=
| Method
| Shadowed (v : PyVal).

(** A callable handed to [sublime.set_timeout]. *)
Inductive Callback : Type :=
| Loader (settings_file : string) (etree : PyVal)
         (auto_update sparse_update : bool)
    (* _loader, closed over the arguments of load_settings *)
| ReloadSettings (c : Callee).
    (* self.__reload_settings *)

Record World : Type := mkWorld {
  attrs : gmap string PyVal;
    (* the instance dictionary of the bound object *)
  setting_entries : PyVal;
    (* the class attribute setting_entries *)
  API_READY : bool;
  settings_get : string -> PyVal -> PyVal -> PyVal;
    (* settings_get file key default: Settings.get on the store of file *)
  on_change : list (string * PyVal * Handler);
    (* add_on_change calls so far: store, token, handler *)
  timeouts : list (Callback * Z)
    (* set_timeout calls so far: callback, delay *)
}.

Definition set_attrs (f : gmap string PyVal -> gmap string PyVal) (w : World)
  : World :=
  mkWorld (f (attrs w)) (setting_entries w) (API_READY w) (settings_get w)
          (on_change w) (timeouts w).

Definition assign (name : string) (v : PyVal) (w : World) : World :=
  set_attrs (insert name v) w.

Definition register (store : string) (token : PyVal) (h : Handler) (w : World)
  : World :=
  mkWorld (attrs w) (setting_entries w) (API_READY w) (settings_get w)
          (on_change w ++ [(store, token, h)]) (timeouts w).

Definition schedule (cb : Callback) (delay : Z) (w : World) : World :=
  mkWorld (attrs w) (setting_entries w) (API_READY w) (settings_get w)
          (on_change w) (timeouts w ++ [(cb, delay)]).

(** [plugin_loaded]: the host's lifecycle hook. *)
Definition plugin_loaded (w : World) : World :=
  mkWorld (attrs w) (setting_entries w) true (settings_get w)
          (on_change w) (timeouts w).

(** ** Computations: state and exceptions *)

(** A computation runs in a world and returns the world it leaves with a
    value or the exception it raised; the effects made before an exception
    stay. *)
Definition M (A : Type) : Type := World -> World * Outcome A.

Definition ret {A} (a : A) : M A := fun w => (w, Returns a).

Definition raise {A} (e : Exn) : M A := fun w => (w, Raises e).

Definition bind {A B} (c : M A) (k : A -> M B) : M B :=
  fun w =>
    match c w with
    | (w', Returns a) => k a w'
    | (w', Raises e) => (w', Raises e)
    end.

Definition lift {A} (o : Outcome A) : M A := fun w => (w, o).

Definition modify (f : World -> World) : M unit := fun w => (f w, Returns tt).

Definition ask {A} (f : World -> A) : M A := fun w => (w, Returns (f w)).

Declare Scope py_scope.
Delimit Scope py_scope with py.
Notation "'let*' x ':=' c 'in' k" := (bind c (fun x => k))
  (at level 10, x pattern, c at level 100, k at level 200) : py_scope.
Notation "c1 ';;;' c2" := (bind c1 (fun _ => c2))
  (at level 90, right associativity) : py_scope.
Local Open Scope py_scope.

Section ForEach.
Context {A : Type} (body : A -> M unit).

(** [for x in items: body(x)] *)
Fixpoint for_each (items : list A) : M unit :=
  match items with
  | [] => ret tt
  | x :: rest => body x ;;; for_each rest
  end.
End ForEach.

(** ** Attribute access on [self] *)

Definition _settings_obj : string := "_settings_obj".
Definition _settings_update_time : string := "_settings_update_time".
(* the private names, as the class body mangles them *)
Definition __reload_settings : string :=
  "_DeclarativeSettingsMixin__reload_settings".
Definition __delay_reload_settings : string :=
  "_DeclarativeSettingsMixin__delay_reload_settings".

(** [self.name] for an attribute the class does not define. *)
Definition getattr (name : string) : M PyVal :=
  fun w =>
    match attrs w !! name with
    | Some v => (w, Returns v)
    | None => (w, Raises (AttributeError "DeclarativeSettingsMixin" name))
    end.

(** [self.name] for a method of the class: an instance attribute of that
    name comes first. *)
Definition getmethod (name : string) : M Callee :=
  ask (fun w => match attrs w !! name with
                | Some v => Shadowed v
                | None => Method
                end).

(** Calling what [getmethod] found. *)
Definition call {A} (c : Callee) (body : M A) : M A :=
  match c with
  | Method => body
  | Shadowed v => raise (TypeError (NotCallable (type_name v)))
  end.

(** The attributes every instance has that are not entries of its
    dictionary: [setattr] on them does not bind a name. *)
Definition special_attributes : list string :=
  ["__class__"; "__dict__"; "__weakref__"].

(** [setattr(self, attribute, v)]. No value here is a class or a
    dictionary, so [__class__] and [__dict__] refuse it, and [__weakref__]
    cannot be written; every other name is bound in the instance
    dictionary. *)
Definition setattr (attribute : PyVal) (v : PyVal) : M unit :=
  match attribute with
  | PStr name =>
      if String.eqb name "__class__" then
        raise (TypeError (ClassMustBeAClass (type_name v)))
      else if String.eqb name "__dict__" then
        raise (TypeError (DictMustBeADictionary (type_name v)))
      else if String.eqb name "__weakref__" then
        raise (AttributeError "DeclarativeSettingsMixin" "__weakref__")
      else modify (assign name v)
  | _ => raise (TypeError (AttributeNameNotString (type_name attribute)))
  end.

Arguments setattr : simpl never.

(** [settings_obj.get(key, default)] *)
Definition call_get (settings_obj key default : PyVal) : M PyVal :=
  match settings_obj with
  | PSettings file => ask (fun w => settings_get w file key default)
  | _ => raise (AttributeError (type_name settings_obj) "get")
  end.

(** [settings_obj.add_on_change(token, handler)] *)
Definition call_add_on_change (settings_obj token : PyVal) (h : Handler) : M unit :=
  match settings_obj with
  | PSettings file => modify (register file token h)
  | _ => raise (AttributeError (type_name settings_obj) "add_on_change")
  end.

(** ** The mixin *)

(** [key == '' or key == Ellipsis] *)
Definition key_omitted (key : PyVal) : bool :=
  match key with
  | PStr "" => true
  | PEllipsis => true
  | _ => false
  end.

Definition process_setting_entry (entry : PyVal) : M PyVal :=
  let* settings_obj := getattr _settings_obj in
  let* fields := lift (unpack3 entry) in
  let '(attribute, key, default) := fields in
  let key := if key_omitted key then attribute else key in
  (match settings_obj with
   | PNone => setattr attribute default
   | _ => let* v := call_get settings_obj key default in
          setattr attribute v
   end) ;;;
  ret key.

Definition _is_setting_entry (entry : PyVal) : Outcome bool :=
  match py_len entry with
  | Raises e => Raises e
  | Returns n =>
      if Nat.eqb n 3 then
        match py_getitem entry 0 with
        | Raises e => Raises e
        | Returns first => Returns (is_str first)
        end
      else Returns false
  end.

(** The variables [_load_entry] is closed over. *)
Record Frame : Type := mkFrame {
  fr_process_setting_entry : Callee;
  fr_settings_obj : PyVal;
  fr_entry_tree : PyVal;
  fr_install_update_handler : bool;
  fr_sparse : bool
}.

(** [_load_entry.update_handler] *)
Definition update_handler (fr : Frame) : Handler :=
  SharedHandler (fr_entry_tree fr) (fr_install_update_handler fr) (fr_sparse fr).

(** The first branch of [_load_entry]: the entry is a setting entry. *)
Definition _load_leaf (fr : Frame) (entry : PyVal) : M unit :=
  let* processed_key :=
    call (fr_process_setting_entry fr) (process_setting_entry entry) in
  if fr_install_update_handler fr then
    let handler := if fr_sparse fr then SparseHandler entry
                   else update_handler fr in
    call_add_on_change (fr_settings_obj fr) entry handler
  else ret tt.

Fixpoint _load_entry (fr : Frame) (entry : PyVal) {struct entry} : M unit :=
  match _is_setting_entry entry with
  | Raises e => raise e
  | Returns true => _load_leaf fr entry
  | Returns false =>
      match entry with
      | PTuple items => for_each (_load_entry fr) items
      | _ => raise (TypeError (BadSettingEntry (type_name entry) entry))
      end
  end.

Definition reload_settings (entry_tree : PyVal) (install_update_handler sparse : bool)
  : M unit :=
  let* process := getmethod "process_setting_entry" in
  let* settings_obj := getattr _settings_obj in
  _load_entry (mkFrame process settings_obj entry_tree install_update_handler sparse)
              entry_tree.

(** [self.__reload_settings(...)] as the host calls it from a timeout:
    with no argument. *)
Definition reload_settings_no_args : M unit :=
  raise (TypeError (MissingArgument "__reload_settings" "entry_tree")).

Definition set_timeout (cb : Callback) (delay : Z) : M unit :=
  modify (schedule cb delay).

Definition load_settings (settings_file : string) (entry_tree : PyVal)
           (auto_update sparse_update : bool) : M unit :=
  let* etree :=
    match entry_tree with
    | PNone => ask (fun w => match attrs w !! "setting_entries" with
                             | Some v => v
                             | None => setting_entries w
                             end)
    | _ => ret entry_tree
    end in
  let* ready := ask API_READY in
  if ready then
    modify (assign _settings_obj (PSettings settings_file)) ;;;
    let* m := getmethod __reload_settings in
    call m (reload_settings etree auto_update sparse_update)
  else
    modify (assign _settings_obj PNone) ;;;
    let* m := getmethod __reload_settings in
    call m (reload_settings etree false false) ;;;
    set_timeout (Loader settings_file etree auto_update sparse_update) 500.

(** [__delay_reload_settings(self)], called with [args] after [self] and
    with [now] the reading of [time.clock()]. *)
Definition delay_elapsed (now last : float) : bool :=
  PrimFloat.ltb 2%float (PrimFloat.abs (PrimFloat.sub now last)).

Definition delay_reload_settings (args : list PyVal) (now : float) : M unit :=
  match args with
  | _ :: _ =>
      raise (TypeError (WrongArgumentCount "__delay_reload_settings"
                                           1 (1 + length args)))
  | [] =>
      let* recorded := getattr _settings_update_time in
      match py_number recorded with
      | None => raise (TypeError (UnsupportedOperand "float" (type_name recorded)))
      | Some (Raises e) => raise e
      | Some (Returns last) =>
          if delay_elapsed now last then
            modify (assign _settings_update_time (PFloat now)) ;;;
            let* m := getmethod __reload_settings in
            set_timeout (ReloadSettings m) 2
          else ret tt
      end
  end.

(** ** What the host runs later *)

(** The host delivers a change notification to a registered handler;
    [now] is what [time.clock()] reads during the call. *)
Definition run_handler (h : Handler) (now : float) : M unit :=
  match h with
  | SparseHandler entry => process_setting_entry entry ;;; ret tt
  | SharedHandler entry_tree install sparse =>
      let* m := getmethod __delay_reload_settings in
      call m (delay_reload_settings
                [entry_tree; PBool install; PBool sparse] now)
  end.

(** The host fires a timeout. *)
Definition run_callback (cb : Callback) : M unit :=
  match cb with
  | Loader settings_file etree auto_update sparse_update =>
      let* m := getmethod "load_settings" in
      call m (load_settings settings_file etree auto_update sparse_update)
  | ReloadSettings c => call c reload_settings_no_args
  end.

(** ** Entry trees *)

(** Induction over values, with the items of tuples and lists. *)
Section PyVal_induction.
Variable P : PyVal -> Prop.
Hypothesis HNone : P PNone.
Hypothesis HEllipsis : P PEllipsis.
Hypothesis HBool : forall b, P (PBool b).
Hypothesis HInt : forall z, P (PInt z).
Hypothesis HFloat : forall q, P (PFloat q).
Hypothesis HStr : forall s, P (PStr s).
Hypothesis HTuple : forall items, Forall P items -> P (PTuple items).
Hypothesis HList : forall items, Forall P items -> P (PList items).
Hypothesis HSettings : forall name, P (PSettings name).

Fixpoint PyVal_ind (v : PyVal) : P v :=
  let all :=
    fix all (l : list PyVal) : Forall P l :=
      match l with
      | [] => @List.Forall_nil _ P
      | x :: r => @List.Forall_cons _ P x r (PyVal_ind x) (all r)
      end in
  match v with
  | PNone => HNone
  | PEllipsis => HEllipsis
  | PBool b => HBool b
  | PInt z => HInt z
  | PFloat q => HFloat q
  | PStr s => HStr s
  | PTuple items => HTuple items (all items)
  | PList items => HList items (all items)
  | PSettings name => HSettings name
  end.
End PyVal_induction.

(** The test of [_load_entry]'s first branch, when it raises nothing. *)
Definition is_leaf (entry : PyVal) : bool :=
  match _is_setting_entry entry with
  | Returns b => b
  | Raises _ => false
  end.

(** The fields of a setting entry: what [attribute, key, default = entry]
    binds when the attribute is a string. *)
Definition fields (entry : PyVal) : option (string * PyVal * PyVal) :=
  match py_iter entry with
  | Some [PStr attribute; key; default] => Some (attribute, key, default)
  | _ => None
  end.

(** The setting entries of a tree, in the order of the walk. *)
Fixpoint leaves (t : PyVal) : list PyVal :=
  if is_leaf t then [t]
  else match t with
       | PTuple items => flat_map leaves items
       | _ => []
       end.

Definition declared (t : PyVal) : list (string * PyVal * PyVal) :=
  omap fields (leaves t).

Definition attribute_of (f : string * PyVal * PyVal) : string := f.1.1.

Definition leaf_names (t : PyVal) : list string :=
  attribute_of <$> declared t.

(** A valid tree: a setting entry, or a tuple of valid trees. *)
Fixpoint valid_tree (t : PyVal) : bool :=
  if is_leaf t then true
  else match t with
       | PTuple items => forallb valid_tree items
       | _ => false
       end.

(** How deep tuples nest in a tree. *)
Fixpoint depth (t : PyVal) : nat :=
  match t with
  | PTuple items => S (list_max (map depth items))
  | _ => 0
  end.

(** The key [process_setting_entry] looks up. *)
Definition setting_key (attribute : string) (key : PyVal) : PyVal :=
  if key_omitted key then PStr attribute else key.

(** The value a setting entry binds when the store reference is
    [settings_obj]: [None], or the settings of a file. *)
Definition setting_value (w : World) (settings_obj : PyVal)
           (f : string * PyVal * PyVal) : PyVal :=
  let '(attribute, key, default) := f in
  match settings_obj with
  | PSettings file => settings_get w file (setting_key attribute key) default
  | _ => default
  end.

(** The handler [_load_entry] registers for an entry. *)
Definition handler_of (fr : Frame) (entry : PyVal) : Handler :=
  if fr_sparse fr then SparseHandler entry else update_handler fr.

(** What the walk does at one setting entry, when nothing raises. *)
Definition leaf_effect (fr : Frame) (w : World) (entry : PyVal) : World :=
  match fields entry with
  | Some f =>
      let w1 := assign (attribute_of f) (setting_value w (fr_settings_obj fr) f) w in
      if fr_install_update_handler fr then
        match fr_settings_obj fr with
        | PSettings file => register file entry (handler_of fr entry) w1
        | _ => w1
        end
      else w1
  | None => w
  end.

(** The walk with a bound on the depth of the recursion, as an interpreter
    with a finite stack runs it: [None] when the bound is reached. *)
Fixpoint _load_entry_bounded (stack : nat) (fr : Frame) (entry : PyVal) (w : World)
  : option (World * Outcome unit) :=
  match stack with
  | O => None
  | S stack' =>
      match _is_setting_entry entry with
      | Raises e => Some (w, Raises e)
      | Returns true => Some (_load_leaf fr entry w)
      | Returns false =>
          match entry with
          | PTuple items =>
              (fix each (l : list PyVal) (w : World) :=
                 match l with
                 | [] => Some (w, Returns tt)
                 | sub_entry :: rest =>
                     match _load_entry_bounded stack' fr sub_entry w with
                     | Some (w', Returns _) => each rest w'
                     | Some (w', Raises e) => Some (w', Raises e)
                     | None => None
                     end
                 end) items w
          | _ => Some (w, Raises (TypeError (BadSettingEntry (type_name entry) entry)))
          end
      end
  end.


(** Successive calls of [__delay_reload_settings], with the readings at
    which a reload was scheduled. *)
Fixpoint delay_calls (readings : list float) (w : World)
  : World * list float :=
  match readings with
  | [] => (w, [])
  | now :: rest =>
      let w' := (delay_reload_settings [] now w).1 in
      let '(w'', fired) := delay_calls rest w' in
      (w'', if Nat.ltb (length (timeouts w)) (length (timeouts w'))
            then now :: fired else fired)
  end.

(** * Notions for the statements *)

(** The store reference a load leaves in [_settings_obj]. *)
Definition store_ref (v : PyVal) : Prop :=
  v = PNone \/ exists file, v = PSettings file.

(** A frame as [load_settings] builds it: the method is the class's, the
    store is a store or [None], and handlers go to a store. *)
Definition frame_ok (fr : Frame) : Prop :=
  fr_process_setting_entry fr = Method /\
  ((fr_settings_obj fr = PNone /\ fr_install_update_handler fr = false) \/
   exists file, fr_settings_obj fr = PSettings file).

(** The attribute names of a list of setting entries. *)
Definition names (entries : list PyVal) : list string :=
  attribute_of <$> omap fields entries.

(** The methods a load calls, by the names attribute reads find them. *)
Definition methods : list string :=
  ["load_settings"; "process_setting_entry"; __reload_settings].

(** No instance attribute hides a method of the class. *)
Definition unshadowed (w : World) : Prop :=
  Forall (fun m => attrs w !! m = None) methods.

(** The tree [load_settings] walks: the argument unless it is [None], else
    [self.setting_entries]. *)
Definition resolve_tree (w : World) (entry_tree : PyVal) : PyVal :=
  match entry_tree with
  | PNone => match attrs w !! "setting_entries" with
             | Some v => v
             | None => setting_entries w
             end
  | _ => entry_tree
  end.

(** The frames of the two branches of [load_settings]. *)
Definition ready_frame (settings_file : string) (etree : PyVal)
           (auto_update sparse_update : bool) : Frame :=
  mkFrame Method (PSettings settings_file) etree auto_update sparse_update.

Definition unready_frame (etree : PyVal) : Frame :=
  mkFrame Method PNone etree false false.

(** [w'] differs from [w] at most in the attributes [ns] and in the
    registered handlers. *)
Definition only_binds (ns : list string) (w w' : World) : Prop :=
  (forall n, n ∉ ns -> attrs w' !! n = attrs w !! n) /\
  timeouts w' = timeouts w /\
  API_READY w' = API_READY w /\
  settings_get w' = settings_get w /\
  setting_entries w' = setting_entries w.

(** The names a walk cannot bind without harm: the store reference, which
    the entries after it read, and the special attributes, on which
    [setattr] raises. *)
Definition reserved_names : list string := _settings_obj :: special_attributes.

(** None of the names is reserved. *)
Definition bindable (ns : list string) : Prop :=
  Forall (fun n => n ∉ ns) reserved_names.

(** No setting entry of the tree has a reserved name. *)
Definition bindable_tree (t : PyVal) : Prop := bindable (leaf_names t).

(** No setting entry of the tree has a reserved name or the name of a
    method a load calls. *)
Definition plain_tree (t : PyVal) : Prop :=
  Forall (fun n => n ∉ leaf_names t) (reserved_names ++ methods).

(** Every attribute the tree names holds the default of the last entry
    that names it. *)
Definition bound_to_defaults (t : PyVal) (w : World) : Prop :=
  forall pre entry post attribute key default,
    leaves t = pre ++ entry :: post ->
    fields entry = Some (attribute, key, default) ->
    attribute ∉ names post ->
    attrs w !! attribute = Some default.

(** The host fires the same timeout [n] times in a row. *)
Fixpoint retries (n : nat) (cb : Callback) : M unit :=
  match n with
  | O => ret tt
  | S n' => run_callback cb ;;; retries n' cb
  end.

(** The world a load leaves when the host API is not ready and nothing
    raises: the store reference is [None], the setting entries are bound,
    the retry is scheduled. *)
Definition after_unready_load (settings_file : string) (t : PyVal)
           (auto_update sparse_update : bool) (w : World) : World :=
  schedule (Loader settings_file t auto_update sparse_update) 500
    (foldl (leaf_effect (unready_frame t)) (assign _settings_obj PNone w)
           (leaves t)).

(** The timestamp [__delay_reload_settings] compares with, when there is
    one and it is a number. *)
Definition recorded_time (w : World) : option float :=
  match attrs w !! _settings_update_time ≫= py_number with
  | Some (Returns last) => Some last
  | _ => None
  end.

(** The comparison of the reading with the timestamp passes:
    [abs(current_time - self._settings_update_time) > 2]. *)
Definition elapsed (w : World) (now : float) : Prop :=
  exists last, recorded_time w = Some last /\ delay_elapsed now last = true.

(** What a call that passes the comparison leaves: the timestamp is the
    reading, and one reload is scheduled. *)
Definition reload_scheduled (now : float) (w : World) : World :=
  let w1 := assign _settings_update_time (PFloat now) w in
  schedule (ReloadSettings (match attrs w1 !! __reload_settings with
                            | Some v => Shadowed v
                            | None => Method
                            end)) 2 w1.

(** Each scheduled reading passes the comparison with the one scheduled
    before it. *)
Fixpoint far_apart (fired : list float) : Prop :=
  match fired with
  | t1 :: rest =>
      match rest with
      | t2 :: _ => delay_elapsed t2 t1 = true
      | [] => True
      end /\ far_apart rest
  | [] => True
  end.

(** The world after an edit of the settings outside the plugin: from then
    on [Settings.get] answers by [get]. *)
Definition edit_store (get : string -> PyVal -> PyVal -> PyVal) (w : World)
  : World :=
  mkWorld (attrs w) (setting_entries w) (API_READY w) get
          (on_change w) (timeouts w).

(** The registrations the walk of a frame makes for a list of setting
    entries of the store [file]. *)
Definition registrations (file : string) (fr : Frame) (entries : list PyVal)
  : list (string * PyVal * Handler) :=
  (fun entry => (file, entry, handler_of fr entry)) <$> entries.

(** The message of the [TypeError] a node raises that is neither a setting
    entry nor a tuple: the bad-entry message for a value with a length,
    the message of [len] for a value without one. *)
Definition bad_node_message (entry : PyVal) : TypeErrorMsg :=
  match entry with
  | PStr _ | PTuple _ | PList _ => BadSettingEntry (type_name entry) entry
  | PNone | PEllipsis | PBool _ | PInt _ | PFloat _ | PSettings _ =>
      HasNoLen (type_name entry)
  end.

(** The host calls, one after the other, the handlers of a list of
    registrations; an exception of a handler ends that call only. *)
Fixpoint notify_all (regs : list (string * PyVal * Handler)) (now : float)
         (w : World)
  : World :=
  match regs with
  | [] => w
  | (_, _, h) :: rest => notify_all rest now (run_handler h now w).1
  end.

(** Every attribute of [w] is still an attribute in [w']. *)
Definition keeps_attributes (w w' : World) : Prop :=
  forall n, is_Some (attrs w !! n) -> is_Some (attrs w' !! n).

(** * A concrete host and entry trees, for examples *)

(** [Settings.get] over the settings files of a host: a key that is not a
    string of the file, or a file that is not there, gives the default. *)
Definition store_get (files : gmap string (gmap string PyVal))
           (file : string) (key default : PyVal) : PyVal :=
  match key with
  | PStr k =>
      match files !! file ≫= (.!! k) with
      | Some v => v
      | None => default
      end
  | _ => default
  end.

Definition example_files : gmap string (gmap string PyVal) :=
  {[ "Plugin.sublime-settings" :=
       {[ "font_size" := PInt 14; "theme" := PStr "dark" ]} ]}.

(** A new object of a class that declares [entries]. *)
Definition new_world (ready : bool) (entries : PyVal) : World :=
  mkWorld ∅ entries ready (store_get example_files) [] [].

Definition example_tree : PyVal :=
  PTuple [PTuple [PStr "size"; PStr "font_size"; PInt 10];
          PTuple [PTuple [PStr "theme"; PStr ""; PStr "light"];
                  PTuple [PStr "tabs"; PEllipsis; PBool true]]].

(** The setting entries of [example_tree] in one tuple. *)
Definition flat_example_tree : PyVal :=
  PTuple [PTuple [PStr "size"; PStr "font_size"; PInt 10];
          PTuple [PStr "theme"; PStr ""; PStr "light"];
          PTuple [PStr "tabs"; PEllipsis; PBool true]].

(** Two entries for one attribute, then an entry named as the store
    reference, then one more entry. *)
Definition clashing_tree : PyVal :=
  PTuple [PTuple [PStr "size"; PStr "font_size"; PInt 10];
          PTuple [PStr "size"; PStr "tab_size"; PInt 4];
          PTuple [PStr "_settings_obj"; PStr ""; PInt 7];
          PTuple [PStr "theme"; PStr ""; PStr "light"]].

(** A tree whose one setting entry is named as the store reference. *)
Definition store_named_tree : PyVal :=
  PTuple [PTuple [PStr "_settings_obj"; PStr ""; PInt 7]].

(** A tree with a setting entry named as a method of the mixin. *)
Definition method_named_tree : PyVal :=
  PTuple [PTuple [PStr "load_settings"; PStr ""; PBool true]].

(** A tree whose one setting entry is named as the class reference every
    object has. *)
Definition class_named_tree : PyVal :=
  PTuple [PTuple [PStr "__class__"; PStr ""; PInt 5]].

(** A new object on which an instance attribute hides the method
    [process_setting_entry]. *)
Definition shadowed_world (ready : bool) : World :=
  assign "process_setting_entry" (PBool true) (new_world ready (PTuple [])).

(** A tuple of three nodes whose first is a string: read as a tree it has
    three sub-entries (the first of them a string of three characters),
    but the walk takes it for one setting entry. *)
Definition ambiguous_entry : PyVal :=
  PTuple [PStr "abc";
          PTuple [PStr "x"; PStr ""; PInt 1];
          PTuple [PStr "y"; PStr ""; PInt 2]].

(** A tree with an integer between two setting entries. *)
Definition tree_with_int : PyVal :=
  PTuple [PTuple [PStr "size"; PStr "font_size"; PInt 10];
          PInt 5;
          PTuple [PStr "theme"; PStr ""; PStr "light"]].

(** An object on which a subclass has recorded a first timestamp. *)
Definition timed_world : World :=
  assign _settings_update_time (PFloat 1) (new_world true example_tree).

(** An edit of the settings files outside the plugin. *)
Definition external_edit (files : gmap string (gmap string PyVal)) (w : World)
  : World :=
  mkWorld (attrs w) (setting_entries w) (API_READY w) (store_get files)
          (on_change w) (timeouts w).

Definition edited_files : gmap string (gmap string PyVal) :=
  {[ "Plugin.sublime-settings" :=
       {[ "font_size" := PInt 20; "theme" := PStr "dark" ]} ]}.

(** * Properties *)

(** ** Setting entries *)

Ltac run_monad :=
  unfold bind, ret, raise, lift, modify, ask, call, set_timeout; simpl.

Lemma chars_length (s : string) : length (chars s) = String.length s.
Proof. induction s as [|c s IH]; simpl; congruence. Qed.

Lemma _is_setting_entry_iter (entry : PyVal) :
  _is_setting_entry entry = Returns true <->
  exists first key default,
    py_iter entry = Some [first; key; default] /\ is_str first = true.
Proof.
  unfold _is_setting_entry, py_len, py_getitem.
  destruct (py_iter entry) as [items|].
  - destruct items as [|x [|y [|z [|u items]]]]; simpl;
      (split; [intros H | intros (x' & y' & z' & H & Hx)]);
      try discriminate.
    + exists x, y, z. split; [reflexivity | congruence].
    + congruence.
  - split; [discriminate | intros (x & y & z & H & _); discriminate].
Qed.

Lemma is_leaf_fields (entry : PyVal) :
  is_leaf entry = true <-> is_Some (fields entry).
Proof.
  unfold is_leaf, fields.
  destruct (_is_setting_entry entry) as [[]|] eqn:E.
  - apply _is_setting_entry_iter in E as (x & k & d & -> & Hx).
    destruct x; try discriminate. split; eauto.
  - split; [discriminate|]. intros [[[a k] d] H].
    destruct (py_iter entry) as [[|[] [|y [|z [|u items]]]]|] eqn:I;
      try discriminate.
    assert (_is_setting_entry entry = Returns true) as E'
      by (apply _is_setting_entry_iter; eauto 6).
    congruence.
  - split; [discriminate|]. intros [[[a k] d] H].
    destruct (py_iter entry) as [[|[] [|y [|z [|u items]]]]|] eqn:I;
      try discriminate.
    assert (_is_setting_entry entry = Returns true) as E'
      by (apply _is_setting_entry_iter; eauto 6).
    congruence.
Qed.

Lemma is_leaf_Returns (entry : PyVal) :
  is_leaf entry = true <-> _is_setting_entry entry = Returns true.
Proof.
  unfold is_leaf. destruct (_is_setting_entry entry) as [[]|];
    split; congruence.
Qed.

Lemma fields_unpack3 (entry : PyVal) a k d :
  fields entry = Some (a, k, d) -> unpack3 entry = Returns (PStr a, k, d).
Proof.
  unfold fields, unpack3.
  destruct (py_iter entry) as [[|[] [|y [|z [|u items]]]]|]; try discriminate.
  congruence.
Qed.

Lemma setattr_bindable (a : string) (v : PyVal) :
  a ∉ special_attributes -> setattr (PStr a) v = modify (assign a v).
Proof.
  intros Ha. unfold setattr.
  destruct (String.eqb_spec a "__class__") as [->|_];
    [exfalso; apply Ha; apply list_elem_of_here|].
  destruct (String.eqb_spec a "__dict__") as [->|_];
    [exfalso; apply Ha; apply list_elem_of_further, list_elem_of_here|].
  destruct (String.eqb_spec a "__weakref__") as [->|_];
    [exfalso; apply Ha; do 2 apply list_elem_of_further; apply list_elem_of_here|].
  reflexivity.
Qed.

(** [setattr] raises and changes nothing, or binds a name that is not
    special; which of the two does not depend on the state. *)
Lemma setattr_cases (attribute v : PyVal) :
  (exists e, forall w, setattr attribute v w = (w, Raises e)) \/
  (exists a, attribute = PStr a /\ (a ∉ special_attributes) /\
             forall w, setattr attribute v w = (assign a v w, Returns tt)).
Proof.
  destruct attribute as [| | | | |a| | |]; try (left; eexists; reflexivity).
  destruct (decide (a ∈ special_attributes)) as [Hin|Hout].
  - left. unfold special_attributes in Hin.
    repeat (apply elem_of_cons in Hin as [->|Hin]; [eexists; reflexivity|]).
    by apply elem_of_nil in Hin.
  - right. exists a. split; [reflexivity|]. split; [exact Hout|].
    intros w. by rewrite setattr_bindable.
Qed.

Lemma process_setting_entry_leaf (entry : PyVal) a k d so (w : World) :
  fields entry = Some (a, k, d) ->
  a ∉ special_attributes ->
  attrs w !! _settings_obj = Some so ->
  store_ref so ->
  process_setting_entry entry w
  = (assign a (setting_value w so (a, k, d)) w, Returns (setting_key a k)).
Proof.
  intros Hf Ha Hso Href. unfold process_setting_entry, getattr.
  run_monad. rewrite Hso, (fields_unpack3 _ _ _ _ Hf).
  destruct Href as [->|[file ->]]; unfold call_get, ask;
    rewrite (setattr_bindable a) by exact Ha; reflexivity.
Qed.

Lemma _load_leaf_effect (fr : Frame) (entry : PyVal) (w : World) :
  frame_ok fr ->
  is_leaf entry = true ->
  (forall f, fields entry = Some f -> attribute_of f ∉ special_attributes) ->
  attrs w !! _settings_obj = Some (fr_settings_obj fr) ->
  _load_leaf fr entry w = (leaf_effect fr w entry, Returns tt).
Proof.
  intros [Hm Hso] Hleaf Hspecial Hattr.
  apply is_leaf_fields in Hleaf as [[[a k] d] Hf].
  unfold _load_leaf, leaf_effect. rewrite Hm, Hf. run_monad.
  rewrite (process_setting_entry_leaf _ _ _ _ _ _ Hf (Hspecial _ Hf) Hattr)
    by (destruct Hso as [[-> _]|[file ->]]; [left|right]; eauto).
  destruct Hso as [[Hn ->]|[file Hfile]]; [reflexivity|].
  rewrite Hfile. destruct (fr_install_update_handler fr); reflexivity.
Qed.

Lemma _load_entry_unfold (fr : Frame) (entry : PyVal) :
  _load_entry fr entry =
  match _is_setting_entry entry with
  | Raises e => raise e
  | Returns true => _load_leaf fr entry
  | Returns false =>
      match entry with
      | PTuple items => for_each (_load_entry fr) items
      | _ => raise (TypeError (BadSettingEntry (type_name entry) entry))
      end
  end.
Proof. destruct entry; reflexivity. Qed.

Lemma leaves_unfold (t : PyVal) :
  leaves t = if is_leaf t then [t]
             else match t with
                  | PTuple items => flat_map leaves items
                  | _ => []
                  end.
Proof. destruct t; reflexivity. Qed.

Lemma valid_tree_unfold (t : PyVal) :
  valid_tree t = if is_leaf t then true
                 else match t with
                      | PTuple items => forallb valid_tree items
                      | _ => false
                      end.
Proof. destruct t; reflexivity. Qed.

Lemma _is_setting_entry_iterable (entry : PyVal) items :
  py_iter entry = Some items ->
  _is_setting_entry entry = Returns (is_leaf entry).
Proof.
  intros H. unfold is_leaf, _is_setting_entry, py_len, py_getitem. rewrite H.
  destruct items as [|x [|y [|z [|u items]]]]; reflexivity.
Qed.

(** ** What one setting entry changes *)

Lemma names_app (l1 l2 : list PyVal) : names (l1 ++ l2) = names l1 ++ names l2.
Proof. unfold names. by rewrite omap_app, fmap_app. Qed.

Lemma leaf_names_names (t : PyVal) : leaf_names t = names (leaves t).
Proof. reflexivity. Qed.

Section LeafEffect.
Variable fr : Frame.

Lemma leaf_effect_attrs (w : World) (entry : PyVal) :
  attrs (leaf_effect fr w entry) =
  match fields entry with
  | Some f => <[attribute_of f := setting_value w (fr_settings_obj fr) f]> (attrs w)
  | None => attrs w
  end.
Proof.
  unfold leaf_effect. destruct (fields entry) as [f|]; [|reflexivity].
  destruct (fr_install_update_handler fr), (fr_settings_obj fr); reflexivity.
Qed.

Lemma bindable_elem (ns : list string) :
  bindable ns <-> forall n, n ∈ ns -> n ∉ reserved_names.
Proof.
  unfold bindable. rewrite Forall_forall. split.
  - intros H n Hn Hr. by apply (H n Hr).
  - intros H r Hr Hn. by apply (H r Hn).
Qed.

Lemma bindable_app (l1 l2 : list string) :
  bindable (l1 ++ l2) <-> bindable l1 /\ bindable l2.
Proof.
  rewrite !bindable_elem. split.
  - intros H. split; intros n Hn; apply H, elem_of_app; auto.
  - intros [H1 H2] n [Hn|Hn]%elem_of_app; auto.
Qed.

Lemma bindable_settings_obj (ns : list string) :
  bindable ns -> _settings_obj ∉ ns.
Proof.
  intros H Hin. apply (proj1 (bindable_elem ns) H _ Hin), list_elem_of_here.
Qed.

Lemma bindable_special (ns : list string) (a : string) :
  bindable ns -> a ∈ ns -> a ∉ special_attributes.
Proof.
  intros H Hin Hs. apply (proj1 (bindable_elem ns) H _ Hin).
  by apply list_elem_of_further.
Qed.

Lemma bindable_leaf (entry : PyVal) f :
  bindable (names [entry]) -> fields entry = Some f ->
  attribute_of f ∉ special_attributes.
Proof.
  intros H Hf. apply (bindable_special (names [entry])); [exact H|].
  unfold names. simpl. rewrite Hf. apply list_elem_of_here.
Qed.

Lemma leaf_effect_host (w : World) (entry : PyVal) :
  settings_get (leaf_effect fr w entry) = settings_get w /\
  timeouts (leaf_effect fr w entry) = timeouts w /\
  API_READY (leaf_effect fr w entry) = API_READY w /\
  setting_entries (leaf_effect fr w entry) = setting_entries w.
Proof.
  unfold leaf_effect. destruct (fields entry) as [f|]; [|done].
  destruct (fr_install_update_handler fr), (fr_settings_obj fr); done.
Qed.

Lemma leaf_effect_on_change (w : World) (entry : PyVal) file :
  is_Some (fields entry) ->
  fr_settings_obj fr = PSettings file ->
  on_change (leaf_effect fr w entry) =
  on_change w ++
    (if fr_install_update_handler fr
     then [(file, entry, handler_of fr entry)] else []).
Proof.
  intros [f Hf] Hso. unfold leaf_effect. rewrite Hf, Hso.
  destruct (fr_install_update_handler fr); simpl; [done|].
  by rewrite app_nil_r.
Qed.

Lemma foldl_leaf_effect_host (entries : list PyVal) (w : World) :
  settings_get (foldl (leaf_effect fr) w entries) = settings_get w /\
  timeouts (foldl (leaf_effect fr) w entries) = timeouts w /\
  API_READY (foldl (leaf_effect fr) w entries) = API_READY w /\
  setting_entries (foldl (leaf_effect fr) w entries) = setting_entries w.
Proof.
  revert w. induction entries as [|e entries IH]; intros w; simpl; [done|].
  destruct (IH (leaf_effect fr w e)) as (-> & -> & -> & ->).
  apply leaf_effect_host.
Qed.

Lemma foldl_leaf_effect_other (entries : list PyVal) (w : World) (name : string) :
  name ∉ names entries ->
  attrs (foldl (leaf_effect fr) w entries) !! name = attrs w !! name.
Proof.
  revert w. induction entries as [|e entries IH]; intros w Hn; simpl; [done|].
  unfold names in Hn. simpl in Hn.
  rewrite IH, leaf_effect_attrs.
  - destruct (fields e) as [f|]; [|done].
    rewrite fmap_cons in Hn. apply not_elem_of_cons in Hn as [Hne _].
    by rewrite lookup_insert_ne.
  - destruct (fields e) as [f|]; [|done].
    rewrite fmap_cons in Hn. by apply not_elem_of_cons in Hn as [_ Hn].
Qed.

(** The last entry that names an attribute decides its value. *)
Lemma foldl_leaf_effect_last (pre post : list PyVal) (entry : PyVal) f (w : World) :
  fields entry = Some f ->
  attribute_of f ∉ names post ->
  attrs (foldl (leaf_effect fr) w (pre ++ entry :: post)) !! attribute_of f
  = Some (setting_value w (fr_settings_obj fr) f).
Proof.
  intros Hf Hpost. rewrite foldl_app. simpl.
  rewrite foldl_leaf_effect_other by done.
  rewrite leaf_effect_attrs, Hf, lookup_insert_eq.
  f_equal. destruct f as [[a k] d]. unfold setting_value.
  destruct (foldl_leaf_effect_host pre w) as (-> & _). done.
Qed.

Lemma foldl_leaf_effect_on_change (entries : list PyVal) (w : World) file :
  Forall (fun e => is_Some (fields e)) entries ->
  fr_settings_obj fr = PSettings file ->
  on_change (foldl (leaf_effect fr) w entries) =
  on_change w ++
    (if fr_install_update_handler fr
     then (fun e => (file, e, handler_of fr e)) <$> entries else []).
Proof.
  intros Hall Hso. revert w.
  induction Hall as [|e entries He Hall IH]; intros w; simpl.
  - destruct (fr_install_update_handler fr); by rewrite app_nil_r.
  - rewrite IH, (leaf_effect_on_change _ _ file) by done.
    destruct (fr_install_update_handler fr); simpl;
      by rewrite <- app_assoc.
Qed.
End LeafEffect.

Lemma leaves_fields (t : PyVal) :
  Forall (fun e => is_Some (fields e)) (leaves t).
Proof.
  induction t using PyVal_ind; rewrite leaves_unfold;
    match goal with
    | |- context [is_leaf ?e] =>
        destruct (is_leaf e) eqn:E;
        [ apply Forall_cons; split; [by apply is_leaf_fields | apply Forall_nil_2] | ]
    end; try apply Forall_nil_2.
  clear E. induction H as [|x items Hx _ IH]; simpl; [apply Forall_nil_2|].
  by apply Forall_app.
Qed.

(** ** The walk over a valid tree *)

Lemma for_each_load_entry (fr : Frame) (items : list PyVal) :
  Forall (fun t => forall w,
            valid_tree t = true ->
            bindable_tree t ->
            attrs w !! _settings_obj = Some (fr_settings_obj fr) ->
            _load_entry fr t w = (foldl (leaf_effect fr) w (leaves t), Returns tt))
         items ->
  forall w,
    forallb valid_tree items = true ->
    bindable (names (flat_map leaves items)) ->
    attrs w !! _settings_obj = Some (fr_settings_obj fr) ->
    for_each (_load_entry fr) items w
    = (foldl (leaf_effect fr) w (flat_map leaves items), Returns tt).
Proof.
  induction 1 as [|t items Ht _ IH]; intros w Hvalid Hnames Hso; simpl.
  - reflexivity.
  - simpl in Hvalid. apply andb_prop in Hvalid as [Hvt Hvitems].
    simpl in Hnames. rewrite names_app in Hnames.
    apply bindable_app in Hnames as [Hnt Hnitems].
    unfold bind. rewrite Ht by done. rewrite foldl_app.
    apply IH; [done..|].
    rewrite foldl_leaf_effect_other; [done|].
    by apply bindable_settings_obj.
Qed.

Lemma _load_entry_valid (fr : Frame) (t : PyVal) :
  frame_ok fr ->
  forall w,
    valid_tree t = true ->
    bindable_tree t ->
    attrs w !! _settings_obj = Some (fr_settings_obj fr) ->
    _load_entry fr t w = (foldl (leaf_effect fr) w (leaves t), Returns tt).
Proof.
  intros Hfr.
  induction t using PyVal_ind; intros w Hvalid Hnames Hso;
    rewrite _load_entry_unfold;
    rewrite valid_tree_unfold in Hvalid;
    unfold bindable_tree in Hnames;
    rewrite leaf_names_names in Hnames;
    rewrite leaves_unfold in Hnames |- *;
    match goal with
    | |- context [is_leaf ?e] =>
        destruct (is_leaf e) eqn:E;
        [ rewrite (proj1 (is_leaf_Returns e) E); simpl;
          apply _load_leaf_effect; try done;
          intros f Hf; by apply (bindable_leaf e)
        | try discriminate ]
    end.
  rewrite (_is_setting_entry_iterable (PTuple items) items eq_refl), E.
  by apply for_each_load_entry.
Qed.

(** ** One call of [load_settings] *)

Ltac decide_by_computation :=
  match goal with
  | |- ?P => apply (bool_decide_unpack P); vm_compute; reflexivity
  end.

Ltac in_methods :=
  unfold methods;
  repeat first [apply list_elem_of_here | apply list_elem_of_further].

Lemma _settings_obj_not_method : _settings_obj ∉ methods.
Proof. decide_by_computation. Qed.

Lemma unshadowed_lookup (w : World) (m : string) :
  unshadowed w -> m ∈ methods -> attrs w !! m = None.
Proof. intros H Hm. by apply (proj1 (Forall_forall _ _) H). Qed.

Lemma unshadowed_assign_settings_obj (w : World) (v : PyVal) :
  unshadowed w -> unshadowed (assign _settings_obj v w).
Proof.
  unfold unshadowed, methods. rewrite !Forall_cons, !Forall_nil. simpl.
  intros (H1 & H2 & H3 & _).
  by rewrite !lookup_insert_ne by done.
Qed.

Lemma load_settings_unfold (settings_file : string) (entry_tree : PyVal)
      (auto_update sparse_update : bool) (w : World) :
  load_settings settings_file entry_tree auto_update sparse_update w
  = let t := resolve_tree w entry_tree in
    if API_READY w then
      (let* m := getmethod __reload_settings in
       call m (reload_settings t auto_update sparse_update))
        (assign _settings_obj (PSettings settings_file) w)
    else
      ((let* m := getmethod __reload_settings in
        call m (reload_settings t false false)) ;;;
       set_timeout (Loader settings_file t auto_update sparse_update) 500)
        (assign _settings_obj PNone w).
Proof.
  unfold load_settings, resolve_tree.
  destruct entry_tree; run_monad; destruct (API_READY w); reflexivity.
Qed.

Lemma reload_settings_valid (t : PyVal) (install sparse : bool) (w : World) so :
  unshadowed w ->
  attrs w !! _settings_obj = Some so ->
  frame_ok (mkFrame Method so t install sparse) ->
  valid_tree t = true ->
  bindable_tree t ->
  reload_settings t install sparse w
  = (foldl (leaf_effect (mkFrame Method so t install sparse)) w (leaves t),
     Returns tt).
Proof.
  intros Hw Hso Hfr Hvalid Hnames.
  unfold reload_settings, getmethod, getattr. run_monad.
  rewrite (unshadowed_lookup w "process_setting_entry" Hw), Hso
    by in_methods.
  by apply _load_entry_valid.
Qed.

Lemma load_settings_ready (settings_file : string) (entry_tree : PyVal)
      (auto_update sparse_update : bool) (w : World) :
  let t := resolve_tree w entry_tree in
  API_READY w = true ->
  unshadowed w ->
  valid_tree t = true ->
  bindable_tree t ->
  load_settings settings_file entry_tree auto_update sparse_update w
  = (foldl (leaf_effect (ready_frame settings_file t auto_update sparse_update))
           (assign _settings_obj (PSettings settings_file) w) (leaves t),
     Returns tt).
Proof.
  intros t Hready Hw Hvalid Hnames.
  rewrite load_settings_unfold, Hready. fold t. cbv zeta.
  unfold getmethod. run_monad.
  rewrite lookup_insert_ne by done.
  rewrite (unshadowed_lookup w __reload_settings Hw)
    by in_methods.
  apply reload_settings_valid; try done.
  - by apply unshadowed_assign_settings_obj.
  - simpl. apply lookup_insert_eq.
  - split; [done|]. right. by eexists.
Qed.

Lemma load_settings_unready (settings_file : string) (entry_tree : PyVal)
      (auto_update sparse_update : bool) (w : World) :
  let t := resolve_tree w entry_tree in
  API_READY w = false ->
  unshadowed w ->
  valid_tree t = true ->
  bindable_tree t ->
  load_settings settings_file entry_tree auto_update sparse_update w
  = (schedule (Loader settings_file t auto_update sparse_update) 500
       (foldl (leaf_effect (unready_frame t))
              (assign _settings_obj PNone w) (leaves t)),
     Returns tt).
Proof.
  intros t Hready Hw Hvalid Hnames.
  rewrite load_settings_unfold, Hready. fold t. cbv zeta.
  unfold getmethod. run_monad.
  rewrite lookup_insert_ne by done.
  rewrite (unshadowed_lookup w __reload_settings Hw)
    by in_methods.
  rewrite (reload_settings_valid t false false _ PNone); try done.
  - by apply unshadowed_assign_settings_obj.
  - simpl. apply lookup_insert_eq.
  - split; [done|]. by left.
Qed.

(** ** The example host *)

Lemma new_world_unshadowed ready entries : unshadowed (new_world ready entries).
Proof. unfold unshadowed, methods. repeat constructor. Qed.

(** ** C3: attributes bound from the store *)

(** C3, as stated, fails: with the store present, [clashing_tree] is valid
    and declares [("size", "font_size", 10)], but after the load [size] is
    what the later entry for [size] gave it, not
    [store.get("font_size", 10)]; and the entry named [_settings_obj]
    replaces the store reference by 7, so that the entry after it raises
    and [theme] is never bound. The valid tree [class_named_tree] binds
    nothing: [setattr] refuses the name [__class__], as it does [__dict__]
    and [__weakref__]. And on an object whose
    [process_setting_entry] is hidden by an instance attribute the load of
    [example_tree] raises at its first setting entry. *)
Lemma load_settings_store_counterexample :
  let w := new_world true (PTuple []) in
  let file := "Plugin.sublime-settings" in
  let after := load_settings file clashing_tree false false w in
  let special := load_settings file class_named_tree false false w in
  let hidden := load_settings file example_tree false false (shadowed_world true) in
  valid_tree clashing_tree = true /\
  ("size", PStr "font_size", PInt 10) ∈ declared clashing_tree /\
  ("theme", PStr "", PStr "light") ∈ declared clashing_tree /\
  settings_get w file (setting_key "size" (PStr "font_size")) (PInt 10) = PInt 14 /\
  attrs after.1 !! "size" = Some (PInt 4) /\
  attrs after.1 !! "theme" = None /\
  after.2 = Raises (AttributeError "int" "get") /\
  valid_tree class_named_tree = true /\
  ("__class__", PStr "", PInt 5) ∈ declared class_named_tree /\
  attrs special.1 !! "__class__" = None /\
  special.2 = Raises (TypeError (ClassMustBeAClass "int")) /\
  (load_settings file (PTuple [PTuple [PStr "__dict__"; PStr ""; PInt 5]])
                 false false w).2
  = Raises (TypeError (DictMustBeADictionary "int")) /\
  (load_settings file (PTuple [PTuple [PStr "__weakref__"; PStr ""; PInt 5]])
                 false false w).2
  = Raises (AttributeError "DeclarativeSettingsMixin" "__weakref__") /\
  attrs hidden.1 !! "size" = None /\
  hidden.2 = Raises (TypeError (NotCallable "bool")).
Proof.
  cbv zeta. split; [reflexivity|].
  split; [vm_compute; apply list_elem_of_here|].
  split; [vm_compute; do 3 apply list_elem_of_further; apply list_elem_of_here|].
  do 5 (split; [vm_compute; reflexivity|]).
  split; [vm_compute; apply list_elem_of_here|].
  repeat split; vm_compute; reflexivity.
Qed.

(** C3 (amended). For every valid entry tree in which no setting entry is
    named [_settings_obj], [__class__], [__dict__] or [__weakref__], a load
    call made while the host API is ready, on an object whose methods
    [load_settings], [process_setting_entry] and [__reload_settings] are
    not hidden by instance attributes, raises nothing, leaves the store of
    the settings file in [_settings_obj], and leaves every attribute that a
    setting entry names equal to [store.get(k, default)] for the last entry
    (in the order of the walk) that names it, where [k] is that entry's key
    name, or the attribute name when the key name is [''] or [Ellipsis]. *)
Theorem load_settings_binds_store_values
        (settings_file : string) (entry_tree : PyVal)
        (auto_update sparse_update : bool) (w : World) :
  let t := resolve_tree w entry_tree in
  API_READY w = true ->
  unshadowed w ->
  valid_tree t = true ->
  bindable_tree t ->
  exists w',
    load_settings settings_file entry_tree auto_update sparse_update w
    = (w', Returns tt) /\
    attrs w' !! _settings_obj = Some (PSettings settings_file) /\
    forall pre entry post attribute key default,
      leaves t = pre ++ entry :: post ->
      fields entry = Some (attribute, key, default) ->
      attribute ∉ names post ->
      attrs w' !! attribute
      = Some (settings_get w settings_file (setting_key attribute key) default).
Proof.
  intros t Hready Hw Hvalid Hnames.
  pose proof (bindable_settings_obj _ Hnames) as Hso.
  rewrite leaf_names_names in Hso.
  eexists. split; [by apply load_settings_ready|]. split.
  - rewrite foldl_leaf_effect_other by done. apply lookup_insert_eq.
  - intros pre entry post attribute key default Hleaves Hf Hlast.
    fold t. rewrite Hleaves.
    by rewrite (foldl_leaf_effect_last _ pre post entry (attribute, key, default)).
Qed.

Lemma load_settings_binds_store_values_witness :
  let w := new_world true (PTuple []) in
  let file := "Plugin.sublime-settings" in
  (API_READY w = true /\ unshadowed w /\
   valid_tree (resolve_tree w example_tree) = true /\
   bindable_tree (resolve_tree w example_tree)) /\
  exists w',
    load_settings file example_tree true true w = (w', Returns tt) /\
    attrs w' !! _settings_obj = Some (PSettings file) /\
    forall pre entry post attribute key default,
      leaves (resolve_tree w example_tree) = pre ++ entry :: post ->
      fields entry = Some (attribute, key, default) ->
      attribute ∉ names post ->
      attrs w' !! attribute
      = Some (settings_get w file (setting_key attribute key) default).
Proof.
  cbv zeta.
  assert (bindable_tree (resolve_tree (new_world true (PTuple [])) example_tree))
    as Hnames by (unfold bindable_tree, bindable; decide_by_computation).
  split.
  - split; [reflexivity|]. split; [apply new_world_unshadowed|].
    split; [reflexivity|exact Hnames].
  - apply (load_settings_binds_store_values
             "Plugin.sublime-settings" example_tree true true
             (new_world true (PTuple []))
             eq_refl (new_world_unshadowed _ _) eq_refl Hnames).
Defined.

(** ** C4: defaults while the store is absent *)

(** C4, as stated, fails: while the host API is not ready, [clashing_tree]
    is valid and declares [("size", "font_size", 10)], but after the load
    [size] is 4, the default of the later entry for [size]; and the entry
    named [_settings_obj] replaces the [None] of the absent store by its
    default 7, so that the entry after it raises an exception and [theme]
    does not exist. The valid tree [class_named_tree] binds nothing:
    [setattr] refuses the name [__class__], as it does [__dict__] and
    [__weakref__]. And on an object whose
    [process_setting_entry] is hidden by an instance attribute the load of
    [example_tree] raises at its first setting entry. *)
Lemma load_settings_defaults_counterexample :
  let w := new_world false (PTuple []) in
  let file := "Plugin.sublime-settings" in
  let after := load_settings file clashing_tree false false w in
  let special := load_settings file class_named_tree false false w in
  let hidden := load_settings file example_tree false false (shadowed_world false) in
  valid_tree clashing_tree = true /\
  ("size", PStr "font_size", PInt 10) ∈ declared clashing_tree /\
  ("theme", PStr "", PStr "light") ∈ declared clashing_tree /\
  attrs after.1 !! "size" = Some (PInt 4) /\
  attrs after.1 !! "theme" = None /\
  after.2 = Raises (AttributeError "int" "get") /\
  valid_tree class_named_tree = true /\
  ("__class__", PStr "", PInt 5) ∈ declared class_named_tree /\
  attrs special.1 !! "__class__" = None /\
  special.2 = Raises (TypeError (ClassMustBeAClass "int")) /\
  (load_settings file (PTuple [PTuple [PStr "__dict__"; PStr ""; PInt 5]])
                 false false w).2
  = Raises (TypeError (DictMustBeADictionary "int")) /\
  (load_settings file (PTuple [PTuple [PStr "__weakref__"; PStr ""; PInt 5]])
                 false false w).2
  = Raises (AttributeError "DeclarativeSettingsMixin" "__weakref__") /\
  attrs hidden.1 !! "size" = None /\
  hidden.2 = Raises (TypeError (NotCallable "bool")).
Proof.
  cbv zeta. split; [reflexivity|].
  split; [vm_compute; apply list_elem_of_here|].
  split; [vm_compute; do 3 apply list_elem_of_further; apply list_elem_of_here|].
  do 4 (split; [vm_compute; reflexivity|]).
  split; [vm_compute; apply list_elem_of_here|].
  repeat split; vm_compute; reflexivity.
Qed.

(** C4 (amended). For every valid entry tree in which no setting entry is
    named [_settings_obj], [__class__], [__dict__] or [__weakref__], one
    [load_settings] call made while the host API is not ready, on an object
    whose methods [load_settings], [process_setting_entry] and
    [__reload_settings] are not hidden by instance attributes, raises
    nothing, leaves [None] in [_settings_obj], and leaves every attribute
    that a setting entry names in existence and equal to the default of the
    last entry (in the order of the walk) that names it. *)
Theorem load_settings_binds_defaults
        (settings_file : string) (entry_tree : PyVal)
        (auto_update sparse_update : bool) (w : World) :
  let t := resolve_tree w entry_tree in
  API_READY w = false ->
  unshadowed w ->
  valid_tree t = true ->
  bindable_tree t ->
  exists w',
    load_settings settings_file entry_tree auto_update sparse_update w
    = (w', Returns tt) /\
    attrs w' !! _settings_obj = Some PNone /\
    forall pre entry post attribute key default,
      leaves t = pre ++ entry :: post ->
      fields entry = Some (attribute, key, default) ->
      attribute ∉ names post ->
      attrs w' !! attribute = Some default.
Proof.
  intros t Hready Hw Hvalid Hnames.
  pose proof (bindable_settings_obj _ Hnames) as Hso.
  rewrite leaf_names_names in Hso.
  eexists. split; [by apply load_settings_unready|]. split.
  - simpl. rewrite foldl_leaf_effect_other by done. apply lookup_insert_eq.
  - intros pre entry post attribute key default Hleaves Hf Hlast.
    fold t. rewrite Hleaves. simpl.
    by rewrite (foldl_leaf_effect_last _ pre post entry (attribute, key, default)).
Qed.

Lemma load_settings_binds_defaults_witness :
  let w := new_world false (PTuple []) in
  (API_READY w = false /\ unshadowed w /\
   valid_tree (resolve_tree w example_tree) = true /\
   bindable_tree (resolve_tree w example_tree)) /\
  exists w',
    load_settings "Plugin.sublime-settings" example_tree true true w
    = (w', Returns tt) /\
    attrs w' !! _settings_obj = Some PNone /\
    forall pre entry post attribute key default,
      leaves (resolve_tree w example_tree) = pre ++ entry :: post ->
      fields entry = Some (attribute, key, default) ->
      attribute ∉ names post ->
      attrs w' !! attribute = Some default.
Proof.
  cbv zeta.
  assert (bindable_tree (resolve_tree (new_world false (PTuple [])) example_tree))
    as Hnames by (unfold bindable_tree, bindable; decide_by_computation).
  split.
  - split; [reflexivity|]. split; [apply new_world_unshadowed|].
    split; [reflexivity|exact Hnames].
  - apply (load_settings_binds_defaults
             "Plugin.sublime-settings" example_tree true true
             (new_world false (PTuple []))
             eq_refl (new_world_unshadowed _ _) eq_refl Hnames).
Defined.

(** ** What a walk can change, whatever the tree *)

Lemma only_binds_refl ns w : only_binds ns w w.
Proof. done. Qed.

Lemma only_binds_trans ns1 ns2 w1 w2 w3 :
  only_binds ns1 w1 w2 -> only_binds ns2 w2 w3 -> only_binds (ns1 ++ ns2) w1 w3.
Proof.
  intros (Ha & Ht & Hr & Hg & He) (Ha' & Ht' & Hr' & Hg' & He').
  split; [|split; [|split; [|split]]]; try congruence.
  intros n Hn. apply not_elem_of_app in Hn as [H1 H2].
  by rewrite Ha', Ha.
Qed.

Lemma only_binds_assign a v w : only_binds [a] w (assign a v w).
Proof.
  split; [|done]. intros n Hn. simpl.
  apply lookup_insert_ne. intros ->. apply Hn, list_elem_of_here.
Qed.

Lemma unpack3_fields (entry : PyVal) a k d :
  unpack3 entry = Returns (PStr a, k, d) -> fields entry = Some (a, k, d).
Proof.
  unfold fields, unpack3.
  destruct (py_iter entry) as [[|x [|y [|z [|u items]]]]|]; try discriminate.
  intros [= -> -> ->]. reflexivity.
Qed.

Lemma setattr_only_binds (x v : PyVal) (w : World) (ns : list string) :
  (forall a, x = PStr a -> a ∈ ns) -> only_binds ns w (setattr x v w).1.
Proof.
  intros Hx.
  destruct (setattr_cases x v) as [[e He]|(a & -> & _ & He)]; rewrite He;
    [apply only_binds_refl|].
  split; [|done]. intros n Hn. simpl. apply lookup_insert_ne.
  intros ->. by apply Hn, Hx.
Qed.

Lemma process_setting_entry_only_binds (entry : PyVal) (w : World) :
  only_binds (names [entry]) w (process_setting_entry entry w).1.
Proof.
  unfold process_setting_entry, getattr. run_monad.
  destruct (attrs w !! _settings_obj) as [so|]; [|apply only_binds_refl].
  destruct (unpack3 entry) as [[[x k] d]|] eqn:E; [|apply only_binds_refl].
  assert (forall a, x = PStr a -> a ∈ names [entry]) as Hns.
  { intros a ->. apply unpack3_fields in E. unfold names. simpl. rewrite E.
    apply list_elem_of_here. }
  destruct so; simpl; try apply only_binds_refl;
    match goal with
    | |- context [setattr ?x ?v ?w] =>
        pose proof (setattr_only_binds x v w _ Hns) as H;
        destruct (setattr x v w) as [w' [[]|e]]; exact H
    end.
Qed.

Lemma _load_leaf_only_binds (fr : Frame) (entry : PyVal) (w : World) :
  only_binds (names [entry]) w (_load_leaf fr entry w).1.
Proof.
  unfold _load_leaf. run_monad.
  destruct (fr_process_setting_entry fr); [|apply only_binds_refl].
  pose proof (process_setting_entry_only_binds entry w) as H.
  destruct (process_setting_entry entry w) as [w' [key|e]]; [|exact H].
  simpl in H.
  destruct (fr_install_update_handler fr); [|exact H].
  unfold call_add_on_change.
  destruct (fr_settings_obj fr); exact H.
Qed.

Lemma _load_entry_only_binds (fr : Frame) (t : PyVal) (w : World) :
  only_binds (leaf_names t) w (_load_entry fr t w).1.
Proof.
  revert w. induction t using PyVal_ind; intros w;
    rewrite _load_entry_unfold, leaf_names_names, leaves_unfold;
    match goal with
    | |- context [is_leaf ?e] =>
        destruct (is_leaf e) eqn:E;
        [ rewrite (proj1 (is_leaf_Returns e) E); apply _load_leaf_only_binds
        | unfold is_leaf in E; destruct (_is_setting_entry e) as [[]|];
          try discriminate; try apply only_binds_refl ]
    end.
  clear E. revert w.
  induction H as [|x items Hx _ IH]; intros w; simpl;
    [apply only_binds_refl|].
  rewrite names_app. unfold bind.
  specialize (Hx w). destruct (_load_entry fr x w) as [w1 [[]|e]]; simpl in Hx.
  - eapply only_binds_trans; [exact Hx | apply IH].
  - eapply only_binds_trans; [exact Hx | apply only_binds_refl].
Qed.

Lemma reload_settings_only_binds (t : PyVal) (install sparse : bool) (w : World) :
  only_binds (leaf_names t) w (reload_settings t install sparse w).1.
Proof.
  unfold reload_settings, getmethod, getattr. run_monad.
  destruct (attrs w !! _settings_obj); [|apply only_binds_refl].
  apply _load_entry_only_binds.
Qed.

(** ** C7: the store reference after a call *)

(** Apart from a setting entry named [_settings_obj], nothing in a call
    touches the reference after the assignment that opens the call: it is
    the store of the settings file when the host API is ready, [None] when
    it is not, for malformed trees and for calls that raise as well. *)
Lemma load_settings_replaces_settings_obj
        (settings_file : string) (entry_tree : PyVal)
        (auto_update sparse_update : bool) (w : World) :
  _settings_obj ∉ leaf_names (resolve_tree w entry_tree) ->
  attrs (load_settings settings_file entry_tree auto_update sparse_update w).1
    !! _settings_obj
  = Some (if API_READY w then PSettings settings_file else PNone).
Proof.
  intros Hnames. rewrite load_settings_unfold. cbv zeta.
  set (t := resolve_tree w entry_tree) in *.
  destruct (API_READY w); unfold getmethod; run_monad.
  - match goal with
    | |- context [?m !! __reload_settings] => destruct (m !! __reload_settings)
    end; simpl.
    + apply lookup_insert_eq.
    + destruct (reload_settings_only_binds t auto_update sparse_update
                  (assign _settings_obj (PSettings settings_file) w)) as [Ha _].
      rewrite Ha by done. apply lookup_insert_eq.
  - match goal with
    | |- context [?m !! __reload_settings] => destruct (m !! __reload_settings)
    end; simpl.
    + apply lookup_insert_eq.
    + pose proof (reload_settings_only_binds t false false
                    (assign _settings_obj PNone w)) as [Ha _].
      destruct (reload_settings t false false (assign _settings_obj PNone w))
        as [w' [[]|e]]; simpl in *;
        (rewrite Ha by done; apply lookup_insert_eq).
Qed.

(** C7 fails in the code, at a tree with a setting entry named
    [_settings_obj]. [load_settings] assigns the reference (l.65, l.68) and
    then walks the tree, and the walk binds that entry's attribute with
    [setattr] over the reference. With [store_named_tree] and the host API
    not ready the call returns, schedules its retry, and leaves 7 in
    [_settings_obj], where the docstring of [load_settings] has [None]
    until the API has loaded; with the API ready the call returns and
    leaves 7, not the store it loaded. *)
Theorem load_settings_overwrites_settings_obj :
  let file := "Plugin.sublime-settings" in
  let unready := load_settings file store_named_tree true false
                               (new_world false (PTuple [])) in
  let ready := load_settings file store_named_tree true false
                             (new_world true (PTuple [])) in
  valid_tree store_named_tree = true /\
  unready.2 = Returns tt /\
  attrs unready.1 !! _settings_obj = Some (PInt 7) /\
  timeouts unready.1 = [(Loader file store_named_tree true false, 500%Z)] /\
  ready.2 = Returns tt /\
  attrs ready.1 !! _settings_obj = Some (PInt 7).
Proof.
  cbv zeta. repeat split; vm_compute; reflexivity.
Qed.

(** ** C9: the empty tree *)

(** C9. A [load_settings] call whose entry tree is the empty tuple (given
    as the argument, or found in [setting_entries], whose declared default
    it is), on an object whose [__reload_settings] is not hidden by an
    instance attribute, raises nothing, binds no attribute (the instance
    dictionary changes at [_settings_obj] only, which every call sets) and
    registers no change handler. *)
Theorem load_settings_empty_tree
        (settings_file : string) (entry_tree : PyVal)
        (auto_update sparse_update : bool) (w : World) :
  resolve_tree w entry_tree = PTuple [] ->
  attrs w !! __reload_settings = None ->
  exists w',
    load_settings settings_file entry_tree auto_update sparse_update w
    = (w', Returns tt) /\
    attrs w' = <[_settings_obj :=
                   if API_READY w then PSettings settings_file else PNone]>
                 (attrs w) /\
    on_change w' = on_change w.
Proof.
  intros Htree Hm. rewrite load_settings_unfold, Htree. cbv zeta.
  unfold getmethod, reload_settings, getattr.
  destruct (API_READY w); run_monad;
    rewrite (lookup_insert_ne (attrs w) _settings_obj __reload_settings) by done;
    rewrite Hm; simpl; rewrite lookup_insert_eq; simpl;
    eexists; (split; [reflexivity|]); done.
Qed.

Lemma load_settings_empty_tree_witness :
  let w := new_world true (PTuple []) in
  (resolve_tree w PNone = PTuple [] /\ attrs w !! __reload_settings = None) /\
  exists w',
    load_settings "Plugin.sublime-settings" PNone true false w
    = (w', Returns tt) /\
    attrs w' = <[_settings_obj :=
                   if API_READY w then PSettings "Plugin.sublime-settings"
                   else PNone]> (attrs w) /\
    on_change w' = on_change w.
Proof.
  cbv zeta. split; [split; reflexivity|].
  apply (load_settings_empty_tree
           "Plugin.sublime-settings" PNone true false
           (new_world true (PTuple [])) eq_refl eq_refl).
Defined.

(** ** C10: what counts as a setting entry *)

(** C10. A node of length 3 whose first item is a string is walked as a
    setting entry, whatever else it is (a tuple of sub-entries, a list, a
    string of three characters). From the length and the type of the first
    item alone: the node has three items, the first the string
    [attribute]; it is its own single setting entry; its walk is one call
    of [process_setting_entry] on the node, followed by the registration
    of its handler when handlers are installed, and nothing else, so its
    items are not walked as sub-entries and no attribute but [attribute]
    changes. That call unpacks the node as attribute, key and default:
    where [_settings_obj] is [None] or a store and [setattr] accepts the
    name, it binds [attribute] to the default or to
    [store.get(key, default)]; and in a frame as [load_settings] builds it
    the walk of the node returns with [attribute] bound to that value. *)
Theorem _load_entry_length_3_string_first
        (fr : Frame) (entry first : PyVal) (w : World) :
  py_len entry = Returns 3 ->
  py_getitem entry 0 = Returns first ->
  is_str first = true ->
  exists attribute key default,
    first = PStr attribute /\
    py_iter entry = Some [first; key; default] /\
    leaves entry = [entry] /\
    _load_entry fr entry w
    = (let* processed_key :=
         call (fr_process_setting_entry fr) (process_setting_entry entry) in
       if fr_install_update_handler fr then
         call_add_on_change (fr_settings_obj fr) entry (handler_of fr entry)
       else ret tt) w /\
    only_binds [attribute] w (_load_entry fr entry w).1 /\
    (forall so,
        attrs w !! _settings_obj = Some so ->
        store_ref so ->
        attribute ∉ special_attributes ->
        process_setting_entry entry w
        = (assign attribute (setting_value w so (attribute, key, default)) w,
           Returns (setting_key attribute key))) /\
    (frame_ok fr ->
     attrs w !! _settings_obj = Some (fr_settings_obj fr) ->
     attribute ∉ special_attributes ->
     _load_entry fr entry w = (leaf_effect fr w entry, Returns tt) /\
     attrs (_load_entry fr entry w).1 !! attribute
     = Some (setting_value w (fr_settings_obj fr) (attribute, key, default))).
Proof.
  intros Hlen Hfirst Hstr.
  assert (_is_setting_entry entry = Returns true) as Hleaf.
  { unfold _is_setting_entry. by rewrite Hlen, Hfirst, Hstr. }
  pose proof (proj2 (is_leaf_Returns entry) Hleaf) as Hl.
  destruct (proj1 (is_leaf_fields entry) Hl) as [[[a k] d] Hf].
  assert (py_iter entry = Some [PStr a; k; d]) as Hiter.
  { unfold fields in Hf.
    destruct (py_iter entry) as [[|[] [|y [|z [|u items]]]]|]; try discriminate.
    congruence. }
  assert (first = PStr a) as ->.
  { unfold py_getitem in Hfirst. rewrite Hiter in Hfirst. simpl in Hfirst.
    congruence. }
  assert (_load_entry fr entry w = _load_leaf fr entry w) as Heq
    by (by rewrite _load_entry_unfold, Hleaf).
  exists a, k, d.
  split; [reflexivity|]. split; [exact Hiter|].
  split; [by rewrite leaves_unfold, Hl|].
  split; [exact Heq|]. split.
  { rewrite Heq. pose proof (_load_leaf_only_binds fr entry w) as H.
    unfold names in H. simpl in H. by rewrite Hf in H. }
  split.
  { intros so Hso Href Ha. by apply process_setting_entry_leaf. }
  intros Hfr Hso Ha.
  assert (_load_entry fr entry w = (leaf_effect fr w entry, Returns tt)) as He.
  { rewrite Heq. apply _load_leaf_effect; try done.
    intros f Hf'. rewrite Hf in Hf'. by injection Hf' as <-. }
  split; [exact He|]. rewrite He. simpl.
  rewrite leaf_effect_attrs, Hf. simpl. apply lookup_insert_eq.
Qed.

Lemma _load_entry_length_3_string_first_witness :
  let fr := ready_frame "Plugin.sublime-settings" ambiguous_entry false false in
  let w := assign _settings_obj (PSettings "Plugin.sublime-settings")
                  (new_world true (PTuple [])) in
  let entry := ambiguous_entry in
  (py_len entry = Returns 3 /\
   py_getitem entry 0 = Returns (PStr "abc") /\
   is_str (PStr "abc") = true) /\
  exists attribute key default,
    PStr "abc" = PStr attribute /\
    py_iter entry = Some [PStr "abc"; key; default] /\
    leaves entry = [entry] /\
    _load_entry fr entry w
    = (let* processed_key :=
         call (fr_process_setting_entry fr) (process_setting_entry entry) in
       if fr_install_update_handler fr then
         call_add_on_change (fr_settings_obj fr) entry (handler_of fr entry)
       else ret tt) w /\
    only_binds [attribute] w (_load_entry fr entry w).1 /\
    (forall so,
        attrs w !! _settings_obj = Some so ->
        store_ref so ->
        attribute ∉ special_attributes ->
        process_setting_entry entry w
        = (assign attribute (setting_value w so (attribute, key, default)) w,
           Returns (setting_key attribute key))) /\
    (frame_ok fr ->
     attrs w !! _settings_obj = Some (fr_settings_obj fr) ->
     attribute ∉ special_attributes ->
     _load_entry fr entry w = (leaf_effect fr w entry, Returns tt) /\
     attrs (_load_entry fr entry w).1 !! attribute
     = Some (setting_value w (fr_settings_obj fr) (attribute, key, default))).
Proof.
  cbv zeta. split; [repeat split|].
  apply (_load_entry_length_3_string_first
           (ready_frame "Plugin.sublime-settings" ambiguous_entry false false)
           ambiguous_entry (PStr "abc")
           (assign _settings_obj (PSettings "Plugin.sublime-settings")
                   (new_world true (PTuple [])))
           eq_refl eq_refl eq_refl).
Defined.

(** ** C5: malformed nodes *)

(** A node that has a length, is not a setting entry and is not a tuple
    reaches the last branch of [_load_entry]: the [TypeError] names its
    type and dumps it, and the world is as the walk found it. *)
Lemma _load_entry_bad_sized (fr : Frame) (entry : PyVal) items (w : World) :
  py_iter entry = Some items ->
  is_leaf entry = false ->
  is_tuple entry = false ->
  _load_entry fr entry w
  = (w, Raises (TypeError (BadSettingEntry (type_name entry) entry))).
Proof.
  intros Hiter Hleaf Htuple.
  rewrite _load_entry_unfold, (_is_setting_entry_iterable _ _ Hiter), Hleaf.
  by destruct entry.
Qed.

(** A node that has no length never reaches that branch: [len] raises in
    [_is_setting_entry], and its [TypeError] names the type only. *)
Lemma _load_entry_bad_unsized (fr : Frame) (entry : PyVal) (w : World) :
  py_iter entry = None ->
  _load_entry fr entry w
  = (w, Raises (TypeError (HasNoLen (type_name entry)))).
Proof.
  intros Hiter. rewrite _load_entry_unfold.
  unfold _is_setting_entry, py_len. by rewrite Hiter.
Qed.

(** C5 fails in the code at [tree_with_int]: the node 5 is neither a
    setting entry nor a tuple, and the load does raise a [TypeError] that
    ends it there ([size] is bound, [theme] is not), but the error is the
    one of [len(5)], which names the type [int] and has no dump of the
    value; the error of the bad-entry branch is not reached. A node with a
    length, such as the string ['xy'], does get that error. *)
Theorem load_settings_int_node :
  let file := "Plugin.sublime-settings" in
  let w := new_world true (PTuple []) in
  let after := load_settings file tree_with_int true false w in
  is_leaf (PInt 5) = false /\ is_tuple (PInt 5) = false /\
  after.2 = Raises (TypeError (HasNoLen "int")) /\
  after.2 <> Raises (TypeError (BadSettingEntry "int" (PInt 5))) /\
  attrs after.1 !! "size" = Some (PInt 14) /\
  attrs after.1 !! "theme" = None /\
  (load_settings file (PTuple [PStr "xy"]) true false w).2
  = Raises (TypeError (BadSettingEntry "str" (PStr "xy"))).
Proof.
  cbv zeta. repeat split; try (vm_compute; reflexivity).
  vm_compute. discriminate.
Qed.

(** ** C8: the walk ends *)

Lemma _load_entry_bounded_unfold (stack : nat) (fr : Frame) (entry : PyVal)
      (w : World) :
  _load_entry_bounded (S stack) fr entry w =
  match _is_setting_entry entry with
  | Raises e => Some (w, Raises e)
  | Returns true => Some (_load_leaf fr entry w)
  | Returns false =>
      match entry with
      | PTuple items =>
          (fix each (l : list PyVal) (w : World) :=
             match l with
             | [] => Some (w, Returns tt)
             | sub_entry :: rest =>
                 match _load_entry_bounded stack fr sub_entry w with
                 | Some (w', Returns _) => each rest w'
                 | Some (w', Raises e) => Some (w', Raises e)
                 | None => None
                 end
             end) items w
      | _ => Some (w, Raises (TypeError (BadSettingEntry (type_name entry) entry)))
      end
  end.
Proof. reflexivity. Qed.

Lemma depth_item_le (x : PyVal) (items : list PyVal) :
  x ∈ items -> depth x <= list_max (map depth items).
Proof.
  induction 1 as [x items|x y items _ IH]; simpl; lia.
Qed.

Lemma for_each_bounded (stack : nat) (fr : Frame) (items : list PyVal) :
  Forall (fun x => forall w,
            _load_entry_bounded stack fr x w = Some (_load_entry fr x w))
         items ->
  forall w,
    (fix each (l : list PyVal) (w : World) :=
       match l with
       | [] => Some (w, Returns tt)
       | sub_entry :: rest =>
           match _load_entry_bounded stack fr sub_entry w with
           | Some (w', Returns _) => each rest w'
           | Some (w', Raises e) => Some (w', Raises e)
           | None => None
           end
       end) items w
    = Some (for_each (_load_entry fr) items w).
Proof.
  induction 1 as [|x rest Hx _ IH]; intros w; [reflexivity|].
  rewrite Hx. cbn [for_each]. unfold bind.
  destruct (_load_entry fr x w) as [w' [[]|e]]; [apply IH | reflexivity].
Qed.

(** A stack deeper than the tuples of the tree nest is enough for the
    walk. *)
Lemma _load_entry_bounded_enough (fr : Frame) (t : PyVal) :
  forall (spare : nat) (w : World),
    _load_entry_bounded (S (depth t) + spare) fr t w = Some (_load_entry fr t w).
Proof.
  induction t using PyVal_ind; intros spare w;
    change (S (depth ?t) + spare) with (S (depth t + spare));
    rewrite _load_entry_bounded_unfold, _load_entry_unfold;
    try (destruct (_is_setting_entry _) as [[]|]; reflexivity).
  destruct (_is_setting_entry (PTuple items)) as [[]|]; try reflexivity.
  apply for_each_bounded.
  apply Forall_forall. intros x Hx w'.
  pose proof (proj1 (Forall_forall _ _) H x Hx) as IH.
  pose proof (depth_item_le x items Hx) as Hle.
  change (depth (PTuple items)) with (S (list_max (map depth items))).
  replace (S (list_max (map depth items)) + spare)
    with (S (depth x) + (list_max (map depth items) - depth x + spare))
    by lia.
  apply IH.
Qed.

(** C8. For every entry tree (a value: finite, and with no cycle), the
    recursive walk of one load ends: a recursion of depth at most one more
    than the tuples of the tree nest returns, with the world and the
    outcome of the walk, and so does every deeper one. The depth the walk
    needs is bounded by the tree, so a walk that never ends needs a tree
    that is not one of these. *)
Theorem _load_entry_terminates (fr : Frame) (t : PyVal) (w : World) (spare : nat) :
  exists w' outcome,
    _load_entry_bounded (S (depth t) + spare) fr t w = Some (w', outcome) /\
    _load_entry fr t w = (w', outcome).
Proof.
  destruct (_load_entry fr t w) as [w' outcome] eqn:E.
  exists w', outcome. split; [|reflexivity].
  by rewrite _load_entry_bounded_enough, E.
Qed.

(** ** C6: polling for readiness *)

Lemma valid_tree_resolve (w : World) (t : PyVal) :
  valid_tree t = true -> resolve_tree w t = t.
Proof. by destruct t. Qed.

Lemma plain_tree_bindable (t : PyVal) : plain_tree t -> bindable_tree t.
Proof.
  unfold plain_tree, bindable_tree, bindable. rewrite Forall_app. by intros [H _].
Qed.

Lemma plain_tree_settings_obj (t : PyVal) :
  plain_tree t -> _settings_obj ∉ leaf_names t.
Proof. intros H. by apply bindable_settings_obj, plain_tree_bindable. Qed.

Lemma plain_tree_methods (t : PyVal) (m : string) :
  plain_tree t -> m ∈ methods -> m ∉ leaf_names t.
Proof.
  unfold plain_tree. rewrite Forall_app. intros [_ H] Hm.
  by apply (proj1 (Forall_forall _ _) H).
Qed.

Lemma run_callback_Loader (settings_file : string) (t : PyVal)
      (auto_update sparse_update : bool) (w : World) :
  unshadowed w ->
  run_callback (Loader settings_file t auto_update sparse_update) w
  = load_settings settings_file t auto_update sparse_update w.
Proof.
  intros Hw. unfold run_callback, getmethod. run_monad.
  by rewrite (unshadowed_lookup w "load_settings" Hw)
    by in_methods.
Qed.

Section Unready.
Variables (settings_file : string) (t : PyVal) (auto_update sparse_update : bool).
Hypothesis Hvalid : valid_tree t = true.
Hypothesis Hplain : plain_tree t.

Lemma after_unready_load_unshadowed (w : World) :
  unshadowed w ->
  unshadowed (after_unready_load settings_file t auto_update sparse_update w).
Proof.
  intros Hw. apply Forall_forall. intros m Hm. simpl.
  rewrite foldl_leaf_effect_other.
  - pose proof (unshadowed_lookup w m Hw Hm) as Hnone. simpl.
    rewrite lookup_insert_ne; [done|].
    intros <-. by apply _settings_obj_not_method.
  - by apply plain_tree_methods.
Qed.

Lemma after_unready_load_host (w : World) :
  let w' := after_unready_load settings_file t auto_update sparse_update w in
  API_READY w' = API_READY w /\
  settings_get w' = settings_get w /\
  timeouts w'
  = timeouts w ++ [(Loader settings_file t auto_update sparse_update, 500%Z)].
Proof.
  unfold after_unready_load. simpl.
  destruct (foldl_leaf_effect_host (unready_frame t) (leaves t)
              (assign _settings_obj PNone w)) as (-> & -> & -> & _).
  done.
Qed.

Lemma after_unready_load_defaults (w : World) :
  bound_to_defaults t
    (after_unready_load settings_file t auto_update sparse_update w).
Proof.
  intros pre entry post attribute key default Hleaves Hf Hlast.
  unfold after_unready_load. simpl. rewrite Hleaves.
  by rewrite (foldl_leaf_effect_last _ pre post entry (attribute, key, default)).
Qed.

Lemma load_settings_unready_step (w : World) :
  API_READY w = false ->
  unshadowed w ->
  load_settings settings_file t auto_update sparse_update w
  = (after_unready_load settings_file t auto_update sparse_update w, Returns tt).
Proof.
  intros Hready Hw.
  pose proof (load_settings_unready settings_file t auto_update sparse_update w)
    as H.
  cbv zeta in H. rewrite (valid_tree_resolve w t Hvalid) in H.
  apply H; try done. by apply plain_tree_bindable.
Qed.

(** While the host API stays not ready, each retry is the same load again
    and schedules the next. *)
Lemma retries_unready (n : nat) (w : World) :
  let cb := Loader settings_file t auto_update sparse_update in
  API_READY w = false ->
  unshadowed w ->
  exists wn,
    retries n cb w = (wn, Returns tt) /\
    API_READY wn = false /\
    unshadowed wn /\
    settings_get wn = settings_get w /\
    timeouts wn = timeouts w ++ replicate n (cb, 500%Z) /\
    (bound_to_defaults t w -> bound_to_defaults t wn).
Proof.
  intros cb. subst cb. revert w.
  induction n as [|n IH]; intros w Hready Hw.
  - exists w. simpl. by rewrite app_nil_r.
  - cbn [retries]. unfold bind.
    rewrite run_callback_Loader, load_settings_unready_step by done.
    destruct (after_unready_load_host w) as (Hr & Hg & Ht).
    destruct (IH (after_unready_load settings_file t auto_update sparse_update w))
      as (wn & Hrun & Hrn & Hun & Hgn & Htn & Hdn).
    { congruence. }
    { by apply after_unready_load_unshadowed. }
    exists wn. split; [exact Hrun|]. split; [exact Hrn|]. split; [exact Hun|].
    split; [congruence|]. split.
    + rewrite Htn, Ht, <- app_assoc. reflexivity.
    + intros _. apply Hdn, after_unready_load_defaults.
Qed.
End Unready.

(** C6, as stated, fails, for calls made while the host API is not ready:
    with [clashing_tree] the entry after the one named [_settings_obj]
    raises, with [class_named_tree] [setattr] refuses the name
    [__class__], with the malformed [tree_with_int] the walk raises, and on
    an object whose [process_setting_entry] is hidden by an instance
    attribute the walk of [example_tree] raises, in all four cases before
    any retry is scheduled; with [method_named_tree] the defaults are bound
    and the retry is scheduled, but the default bound to [load_settings]
    hides the method, so the retry raises instead of calling
    [load_settings] again, and schedules nothing. *)
Lemma load_settings_retry_counterexample :
  let file := "Plugin.sublime-settings" in
  let w := new_world false (PTuple []) in
  (valid_tree clashing_tree = true /\
   (load_settings file clashing_tree true false w).2
   = Raises (AttributeError "int" "get") /\
   timeouts (load_settings file clashing_tree true false w).1 = []) /\
  (valid_tree class_named_tree = true /\
   (load_settings file class_named_tree true false w).2
   = Raises (TypeError (ClassMustBeAClass "int")) /\
   attrs (load_settings file class_named_tree true false w).1 !! "__class__"
   = None /\
   timeouts (load_settings file class_named_tree true false w).1 = []) /\
  ((load_settings file tree_with_int true false w).2
   = Raises (TypeError (HasNoLen "int")) /\
   timeouts (load_settings file tree_with_int true false w).1 = []) /\
  (valid_tree example_tree = true /\
   (load_settings file example_tree true false (shadowed_world false)).2
   = Raises (TypeError (NotCallable "bool")) /\
   timeouts (load_settings file example_tree true false (shadowed_world false)).1
   = []) /\
  (let cb := Loader file method_named_tree true false in
   let w1 := (load_settings file method_named_tree true false w).1 in
   valid_tree method_named_tree = true /\
   (load_settings file method_named_tree true false w).2 = Returns tt /\
   timeouts w1 = [(cb, 500%Z)] /\
   (run_callback cb w1).2 = Raises (TypeError (NotCallable "bool")) /\
   timeouts (run_callback cb w1).1 = [(cb, 500%Z)]).
Proof.
  cbv zeta. repeat split; vm_compute; reflexivity.
Qed.

(** C6 (amended). For every valid entry tree none of whose setting entries
    is named [_settings_obj], [__class__], [__dict__], [__weakref__],
    [load_settings], [process_setting_entry] or [__reload_settings] (under
    its mangled name), a [load_settings] call made while the host API is
    not ready, on an object whose methods [load_settings],
    [process_setting_entry] and [__reload_settings] are not hidden by
    instance attributes, binds the defaults at once and
    then schedules, with the delay 500, a retry that calls [load_settings]
    with the same settings file name, the same resolved entry tree and the
    same [auto_update] and [sparse_update]; each retry that finds the API
    still not ready does the same again, so that after [n] of them [n + 1]
    retries have been scheduled; and the retry that finds the API ready
    loads from the store and schedules no further one. *)
Theorem load_settings_unready_polls
        (settings_file : string) (entry_tree : PyVal)
        (auto_update sparse_update : bool) (w : World) (n : nat) :
  let t := resolve_tree w entry_tree in
  let cb := Loader settings_file t auto_update sparse_update in
  API_READY w = false ->
  unshadowed w ->
  valid_tree t = true ->
  plain_tree t ->
  exists w1 wn w',
    load_settings settings_file entry_tree auto_update sparse_update w
    = (w1, Returns tt) /\
    bound_to_defaults t w1 /\
    timeouts w1 = timeouts w ++ [(cb, 500%Z)] /\
    run_callback cb w1
    = load_settings settings_file t auto_update sparse_update w1 /\
    retries n cb w1 = (wn, Returns tt) /\
    API_READY wn = false /\
    bound_to_defaults t wn /\
    timeouts wn = timeouts w ++ replicate (S n) (cb, 500%Z) /\
    run_callback cb (plugin_loaded wn)
    = load_settings settings_file t auto_update sparse_update (plugin_loaded wn) /\
    run_callback cb (plugin_loaded wn) = (w', Returns tt) /\
    attrs w' !! _settings_obj = Some (PSettings settings_file) /\
    timeouts w' = timeouts wn.
Proof.
  intros t cb Hready Hw Hvalid Hplain.
  pose proof (plain_tree_settings_obj t Hplain) as Hso.
  set (w1 := after_unready_load settings_file t auto_update sparse_update w).
  assert (unshadowed w1) as Hw1 by (by apply after_unready_load_unshadowed).
  destruct (after_unready_load_host settings_file t auto_update sparse_update w)
    as (Hr1 & Hg1 & Ht1). fold w1 in Hr1, Hg1, Ht1.
  destruct (retries_unready settings_file t auto_update sparse_update
              Hvalid Hplain n w1)
    as (wn & Hrun & Hrn & Hun & Hgn & Htn & Hdn); [congruence|done|].
  assert (unshadowed (plugin_loaded wn)) as Hup by exact Hun.
  pose proof (load_settings_ready settings_file t auto_update sparse_update
                (plugin_loaded wn)) as Hload.
  cbv zeta in Hload. rewrite (valid_tree_resolve _ t Hvalid) in Hload.
  specialize (Hload eq_refl Hup Hvalid (plain_tree_bindable t Hplain)).
  eexists w1, wn, _.
  split; [by apply load_settings_unready; [..|apply plain_tree_bindable]|].
  split; [apply after_unready_load_defaults|].
  split; [exact Ht1|].
  split; [by apply run_callback_Loader|].
  split; [exact Hrun|].
  split; [exact Hrn|].
  split; [apply Hdn, after_unready_load_defaults|].
  split; [rewrite Htn, Ht1, <- app_assoc; reflexivity|].
  split; [by apply run_callback_Loader|].
  split; [subst cb; rewrite run_callback_Loader by done; exact Hload|].
  split.
  - rewrite foldl_leaf_effect_other by done. apply lookup_insert_eq.
  - by destruct (foldl_leaf_effect_host
                   (ready_frame settings_file t auto_update sparse_update)
                   (leaves t)
                   (assign _settings_obj (PSettings settings_file)
                           (plugin_loaded wn))) as (_ & -> & _).
Qed.

Lemma load_settings_unready_polls_witness :
  let file := "Plugin.sublime-settings" in
  let w := new_world false example_tree in
  let t := resolve_tree w PNone in
  let cb := Loader file t true false in
  (API_READY w = false /\ unshadowed w /\ valid_tree t = true /\ plain_tree t) /\
  exists w1 wn w',
    load_settings file PNone true false w = (w1, Returns tt) /\
    bound_to_defaults t w1 /\
    timeouts w1 = timeouts w ++ [(cb, 500%Z)] /\
    run_callback cb w1 = load_settings file t true false w1 /\
    retries 2 cb w1 = (wn, Returns tt) /\
    API_READY wn = false /\
    bound_to_defaults t wn /\
    timeouts wn = timeouts w ++ replicate 3 (cb, 500%Z) /\
    run_callback cb (plugin_loaded wn)
    = load_settings file t true false (plugin_loaded wn) /\
    run_callback cb (plugin_loaded wn) = (w', Returns tt) /\
    attrs w' !! _settings_obj = Some (PSettings file) /\
    timeouts w' = timeouts wn.
Proof.
  cbv zeta.
  assert (plain_tree (resolve_tree (new_world false example_tree) PNone))
    as Hplain by (unfold plain_tree; decide_by_computation).
  split.
  - split; [reflexivity|]. split; [apply new_world_unshadowed|].
    split; [reflexivity|exact Hplain].
  - apply (load_settings_unready_polls
             "Plugin.sublime-settings" PNone true false
             (new_world false example_tree) 2
             eq_refl (new_world_unshadowed _ _) eq_refl Hplain).
Defined.

(** ** C1: the debounced reload *)



(** One call of [__delay_reload_settings] itself, as the class defines it:
    with no argument. *)
Lemma delay_reload_settings_elapsed (now : float) (w : World) :
  elapsed w now ->
  delay_reload_settings [] now w = (reload_scheduled now w, Returns tt).
Proof.
  intros (last & Hrec & Hfar). unfold recorded_time in Hrec.
  unfold delay_reload_settings, getattr, getmethod. run_monad.
  destruct (attrs w !! _settings_update_time) as [v|]; [|discriminate].
  simpl in Hrec.
  destruct (py_number v) as [[l|e]|]; try discriminate.
  injection Hrec as ->. by rewrite Hfar.
Qed.

Lemma delay_reload_settings_not_elapsed (args : list PyVal) (now : float)
      (w : World) :
  ~ (args = [] /\ elapsed w now) ->
  (delay_reload_settings args now w).1 = w.
Proof.
  intros Hnot. destruct args as [|x args]; [|reflexivity].
  unfold delay_reload_settings, getattr. run_monad.
  destruct (attrs w !! _settings_update_time) as [v|] eqn:Ev; [|reflexivity].
  destruct (py_number v) as [[last|e]|] eqn:En; [|reflexivity..].
  destruct (delay_elapsed now last) eqn:Ed; [|reflexivity].
  exfalso. apply Hnot. split; [reflexivity|]. exists last. split; [|exact Ed].
  unfold recorded_time. rewrite Ev. simpl. by rewrite En.
Qed.

Lemma elapsed_dec (w : World) (now : float) : elapsed w now \/ ~ elapsed w now.
Proof.
  unfold elapsed. destruct (recorded_time w) as [last|].
  - destruct (delay_elapsed now last) eqn:E.
    + left. by exists last.
    + right. intros (l & [= <-] & H). congruence.
  - right. intros (l & H & _). discriminate.
Qed.

Lemma recorded_time_reload_scheduled (now : float) (w : World) :
  recorded_time (reload_scheduled now w) = Some now.
Proof.
  unfold recorded_time, reload_scheduled. simpl.
  by rewrite lookup_insert_eq.
Qed.

(** In successive calls with no argument, each reading at which a reload
    is scheduled passes the comparison with the one scheduled before. *)
Lemma delay_calls_far_apart (readings : list float) (w : World) :
  far_apart (delay_calls readings w).2 /\
  forall last first,
    recorded_time w = Some last ->
    head (delay_calls readings w).2 = Some first ->
    delay_elapsed first last = true.
Proof.
  revert w. induction readings as [|now rest IH]; intros w.
  - split; [exact I|]. intros last first _ H. discriminate.
  - cbn [delay_calls].
    destruct (elapsed_dec w now) as [He|He].
    + rewrite (delay_reload_settings_elapsed now w He). cbn [fst].
      destruct (IH (reload_scheduled now w)) as [Hfar Hhead].
      destruct (delay_calls rest (reload_scheduled now w)) as [wn fired].
      cbn [snd] in *.
      replace (Nat.ltb (length (timeouts w))
                       (length (timeouts (reload_scheduled now w))))
        with true
        by (symmetry; apply Nat.ltb_lt; simpl; rewrite length_app; simpl; lia).
      split.
      * cbn [far_apart]. split; [|exact Hfar].
        destruct fired as [|t2 fired]; [exact I|].
        apply Hhead; [apply recorded_time_reload_scheduled | reflexivity].
      * intros last first Hrec [= <-].
        destruct He as (last' & Hrec' & H). congruence.
    + rewrite (delay_reload_settings_not_elapsed [] now w) by (by intros [_ H]).
      destruct (IH w) as [Hfar Hhead].
      destruct (delay_calls rest w) as [wn fired]. cbn [snd] in *.
      by rewrite Nat.ltb_irrefl.
Qed.

(** A timeout that calls [__reload_settings] gives it no entry tree: the
    call raises before any walk. *)
Lemma run_callback_ReloadSettings (c : Callee) (w : World) :
  (run_callback (ReloadSettings c) w).1 = w /\
  exists msg, (run_callback (ReloadSettings c) w).2 = Raises (TypeError msg).
Proof. destruct c; simpl; eauto. Qed.

(** On an object on which a first timestamp 1 has been recorded, a call
    with no argument at the reading 5 records 5 and schedules one reload
    with the delay 2; a call at the reading 2.5 changes nothing. *)
Lemma delay_reload_settings_timed_world :
  delay_reload_settings [] 5 timed_world
  = (reload_scheduled 5 timed_world, Returns tt) /\
  timeouts (reload_scheduled 5 timed_world) = [(ReloadSettings Method, 2%Z)] /\
  recorded_time (reload_scheduled 5 timed_world) = Some 5%float /\
  delay_reload_settings [] 2.5 timed_world = (timed_world, Returns tt).
Proof.
  split; [apply delay_reload_settings_elapsed; by exists 1%float|].
  split; [reflexivity|]. split; [apply recorded_time_reload_scheduled|].
  reflexivity.
Qed.




(** ** C2: change handlers *)

(** With [auto_update], a load from the store registers one handler for
    each setting entry, in the order of the walk, with the entry as the
    token: the entry's own closure with [sparse_update], the one shared
    handler without. *)
Lemma load_settings_registers
      (settings_file : string) (entry_tree : PyVal)
      (sparse_update : bool) (w : World) :
  let t := resolve_tree w entry_tree in
  API_READY w = true ->
  unshadowed w ->
  valid_tree t = true ->
  bindable_tree t ->
  on_change (load_settings settings_file entry_tree true sparse_update w).1
  = on_change w ++
    ((fun entry =>
        (settings_file, entry,
         if sparse_update then SparseHandler entry
         else SharedHandler t true false)) <$> leaves t).
Proof.
  intros t Hready Hw Hvalid Hnames.
  rewrite load_settings_ready by done. fold t. cbn [fst].
  rewrite (foldl_leaf_effect_on_change _ _ _ settings_file)
    by (apply leaves_fields || reflexivity).
  simpl. f_equal. apply list_fmap_ext. intros i entry _.
  unfold handler_of, update_handler. simpl. by destruct sparse_update.
Qed.

(** The closure of an entry processes that entry again, and binds no
    attribute but the one the entry names. *)
Lemma run_handler_SparseHandler (entry : PyVal) (now : float) (w : World) :
  (run_handler (SparseHandler entry) now w).1 = (process_setting_entry entry w).1 /\
  only_binds (names [entry]) w (run_handler (SparseHandler entry) now w).1.
Proof.
  assert ((run_handler (SparseHandler entry) now w).1
          = (process_setting_entry entry w).1) as Heq.
  { unfold run_handler. run_monad.
    by destruct (process_setting_entry entry w) as [w' [k|e]]. }
  split; [exact Heq|]. rewrite Heq. apply process_setting_entry_only_binds.
Qed.

(** C2 fails in the code for [sparse_update] false. A load with
    [auto_update] true and the store present registers the shared handler
    for each of the three setting entries of [example_tree]; after an edit
    that makes [font_size] 20, calling that handler raises a [TypeError]
    (four arguments to [__delay_reload_settings], which takes one) and
    reloads nothing: [size] stays 14 and no reload is scheduled. With
    [sparse_update] true the closure of the entry makes [size] 20. *)
Theorem shared_handler_reloads_nothing :
  let file := "Plugin.sublime-settings" in
  let size_entry := PTuple [PStr "size"; PStr "font_size"; PInt 10] in
  let shared := SharedHandler example_tree true false in
  let w1 := (load_settings file example_tree true false
                           (new_world true (PTuple []))).1 in
  let w2 := external_edit edited_files w1 in
  let sparse1 := (load_settings file example_tree true true
                                (new_world true (PTuple []))).1 in
  let sparse2 := external_edit edited_files sparse1 in
  on_change w1 = (fun entry => (file, entry, shared)) <$> leaves example_tree /\
  attrs w1 !! "size" = Some (PInt 14) /\
  settings_get w2 file (PStr "font_size") (PInt 10) = PInt 20 /\
  (run_handler shared 5 w2).2
  = Raises (TypeError (WrongArgumentCount "__delay_reload_settings" 1 4)) /\
  attrs (run_handler shared 5 w2).1 !! "size" = Some (PInt 14) /\
  timeouts (run_handler shared 5 w2).1 = [] /\
  on_change sparse1
  = (fun entry => (file, entry, SparseHandler entry)) <$> leaves example_tree /\
  attrs (run_handler (SparseHandler size_entry) 5 sparse2).1 !! "size"
  = Some (PInt 20).
Proof. cbv zeta. repeat split; vm_compute; reflexivity. Qed.

(** * Further properties of the mixin *)

(** ** [process_setting_entry] on its own *)

(** X1. [process_setting_entry] either raises and leaves the object as it
    was, or the entry has three items of which the first is a string, the
    store reference is [None] or a store, exactly the attribute the entry
    names is bound (to the default, or to what the store answers for the
    key) and the key looked up is returned. *)
Theorem process_setting_entry_all_or_nothing (entry : PyVal) (w : World) :
  (exists e, process_setting_entry entry w = (w, Raises e)) \/
  (exists attribute key default settings_obj,
      fields entry = Some (attribute, key, default) /\
      attrs w !! _settings_obj = Some settings_obj /\
      store_ref settings_obj /\
      process_setting_entry entry w
      = (assign attribute
                (setting_value w settings_obj (attribute, key, default)) w,
         Returns (setting_key attribute key))).
Proof.
  unfold process_setting_entry, getattr. run_monad.
  destruct (attrs w !! _settings_obj) as [so|] eqn:Eso; [|left; eauto].
  destruct (unpack3 entry) as [[[x k] d]|] eqn:E; [|left; eauto].
  assert (forall v,
             (exists e, setattr x v w = (w, Raises e)) \/
             (exists a, fields entry = Some (a, k, d) /\
                        setattr x v w = (assign a v w, Returns tt))) as Hset.
  { intros v. destruct (setattr_cases x v) as [[e He]|(a & -> & _ & He)];
      [left; by exists e|]. right. exists a.
    split; [by apply unpack3_fields|done]. }
  assert (forall a, fields entry = Some (a, k, d) -> x = PStr a) as Hx.
  { intros a Hf. apply fields_unpack3 in Hf. rewrite E in Hf. congruence. }
  destruct so; simpl; try (left; eauto; fail).
  - destruct (Hset d) as [[e ->]|(a & Hf & ->)]; [left; eauto|].
    right. exists a, k, d, PNone. split; [exact Hf|].
    split; [reflexivity|]. split; [by left|]. by rewrite (Hx a Hf).
  - destruct (Hset (settings_get w name (if key_omitted k then x else k) d))
      as [[e ->]|(a & Hf & ->)]; [left; eauto|].
    right. exists a, k, d, (PSettings name). split; [exact Hf|].
    split; [reflexivity|]. split; [right; by eexists|]. by rewrite (Hx a Hf).
Qed.

(** X2. Leaving the key out is the same as repeating the attribute name:
    an entry whose key is [''] or [Ellipsis] is processed exactly as the
    entry with the attribute name as its key, in every world. *)
Theorem process_setting_entry_key_omitted
        (entry entry' : PyVal) attribute key default (w : World) :
  fields entry = Some (attribute, key, default) ->
  key_omitted key = true ->
  fields entry' = Some (attribute, PStr attribute, default) ->
  process_setting_entry entry w = process_setting_entry entry' w.
Proof.
  intros Hf Hk Hf'. unfold process_setting_entry. run_monad.
  destruct (getattr _settings_obj w) as [w' [so|e]]; [|reflexivity].
  rewrite (fields_unpack3 _ _ _ _ Hf), (fields_unpack3 _ _ _ _ Hf'), Hk.
  by destruct (key_omitted (PStr attribute)).
Qed.

Lemma process_setting_entry_key_omitted_witness :
  let w := assign _settings_obj (PSettings "Plugin.sublime-settings")
                  (new_world true (PTuple [])) in
  let entry := PTuple [PStr "theme"; PEllipsis; PStr "light"] in
  let entry' := PList [PStr "theme"; PStr "theme"; PStr "light"] in
  (fields entry = Some ("theme", PEllipsis, PStr "light") /\
   key_omitted PEllipsis = true /\
   fields entry' = Some ("theme", PStr "theme", PStr "light")) /\
  process_setting_entry entry w = process_setting_entry entry' w.
Proof.
  cbv zeta. split; [repeat split|].
  apply (process_setting_entry_key_omitted
           (PTuple [PStr "theme"; PEllipsis; PStr "light"])
           (PList [PStr "theme"; PStr "theme"; PStr "light"])
           "theme" PEllipsis (PStr "light") _ eq_refl eq_refl eq_refl).
Defined.

(** ** [_is_setting_entry] on its own *)

(** X3. [_is_setting_entry] by the type of the node, for the values
    [None], [Ellipsis], bools, ints, floats, strings, tuples, lists and
    settings objects: a string is a setting entry exactly when it has three
    characters (each character is a string); a tuple or a list exactly when
    it has three items and the first is a string; for these three types
    the test returns, and it reads the first item of no sequence of
    another length, so the empty tuple raises no [IndexError]. For
    [None], [Ellipsis], a bool, an int, a float and a settings object it
    raises the [TypeError] of [len], which names the type of the node. *)
Theorem _is_setting_entry_spec (entry : PyVal) :
  _is_setting_entry entry =
  match entry with
  | PStr s => Returns (Nat.eqb (String.length s) 3)
  | PTuple items | PList items =>
      Returns match items with
              | [first; _; _] => is_str first
              | _ => false
              end
  | PNone | PEllipsis | PBool _ | PInt _ | PFloat _ | PSettings _ =>
      Raises (TypeError (HasNoLen (type_name entry)))
  end.
Proof.
  destruct entry as [| | | | |s|items|items|]; try reflexivity.
  - destruct s as [|a [|b [|c [|d s]]]]; reflexivity.
  - destruct items as [|x [|y [|z [|u items]]]]; reflexivity.
  - destruct items as [|x [|y [|z [|u items]]]]; reflexivity.
Qed.

(** ** The walk: malformed nodes, the first error, validity, nesting *)

Lemma _load_entry_neither (fr : Frame) (entry : PyVal) (w : World) :
  is_leaf entry = false ->
  is_tuple entry = false ->
  _load_entry fr entry w = (w, Raises (TypeError (bad_node_message entry))).
Proof.
  intros Hleaf Htuple.
  destruct (py_iter entry) as [items|] eqn:E.
  - rewrite (_load_entry_bad_sized fr entry items) by done.
    by destruct entry.
  - rewrite _load_entry_bad_unsized by done. by destruct entry.
Qed.

(** X4. Of the values [None], [Ellipsis], bools, ints, floats, strings,
    tuples, lists and settings objects, a node that is neither a setting
    entry nor a tuple raises a [TypeError] at once and changes nothing: a
    string or a list raises the bad-entry error, which names the type of
    the node and dumps it; [None], [Ellipsis], a bool, an int, a float and
    a settings object raise the error of [len], which names the type
    only. *)
Theorem _load_entry_bad_node (fr : Frame) (entry : PyVal) (w : World) :
  is_leaf entry = false ->
  is_tuple entry = false ->
  _load_entry fr entry w
  = (w, Raises (TypeError
                  match entry with
                  | PStr _ | PTuple _ | PList _ =>
                      BadSettingEntry (type_name entry) entry
                  | PNone | PEllipsis | PBool _ | PInt _ | PFloat _
                  | PSettings _ => HasNoLen (type_name entry)
                  end)).
Proof.
  intros Hleaf Htuple. by apply _load_entry_neither.
Qed.

Lemma _load_entry_bad_node_witness :
  let fr := unready_frame (PStr "xy") in
  let w := new_world false (PTuple []) in
  (is_leaf (PStr "xy") = false /\ is_tuple (PStr "xy") = false) /\
  _load_entry fr (PStr "xy") w
  = (w, Raises (TypeError (BadSettingEntry "str" (PStr "xy")))).
Proof.
  cbv zeta. split; [split; reflexivity|].
  apply (_load_entry_bad_node (unready_frame (PStr "xy")) (PStr "xy")
           (new_world false (PTuple [])) eq_refl eq_refl).
Defined.

Lemma for_each_app {A} (body : A -> M unit) (l1 l2 : list A) (w : World) :
  for_each body (l1 ++ l2) w = (for_each body l1 ;;; for_each body l2) w.
Proof.
  revert w. induction l1 as [|x l1 IH]; intros w; simpl.
  - reflexivity.
  - unfold bind. destruct (body x w) as [w' [[]|e]]; [apply IH | reflexivity].
Qed.



Lemma valid_tree_false_not_leaf (t : PyVal) :
  valid_tree t = false -> is_leaf t = false.
Proof.
  rewrite valid_tree_unfold. by destruct (is_leaf t).
Qed.

(** On a tree that is not valid the walk raises a [TypeError]. *)
Lemma _load_entry_invalid (fr : Frame) (t : PyVal) :
  frame_ok fr ->
  forall w,
    valid_tree t = false ->
    bindable_tree t ->
    attrs w !! _settings_obj = Some (fr_settings_obj fr) ->
    exists w' msg, _load_entry fr t w = (w', Raises (TypeError msg)).
Proof.
  intros Hfr.
  induction t using PyVal_ind; intros w Hvalid Hnames Hso;
    pose proof (valid_tree_false_not_leaf _ Hvalid) as Hleaf;
    try (eexists _, _; by apply _load_entry_neither).
  rewrite valid_tree_unfold, Hleaf in Hvalid.
  unfold bindable_tree in Hnames.
  rewrite leaf_names_names, leaves_unfold, Hleaf in Hnames.
  rewrite _load_entry_unfold.
  rewrite (_is_setting_entry_iterable (PTuple items) items eq_refl), Hleaf.
  clear Hleaf. revert w Hso.
  induction H as [|x items Hx _ IH]; intros w Hso; [discriminate|].
  simpl in Hvalid, Hnames. rewrite names_app in Hnames.
  apply bindable_app in Hnames as [Hnx Hnitems].
  cbn [for_each]. unfold bind.
  destruct (valid_tree x) eqn:Ex.
  - rewrite (_load_entry_valid fr x Hfr w Ex Hnx Hso).
    apply IH; [exact Hvalid | exact Hnitems |].
    rewrite foldl_leaf_effect_other; [done|].
    by apply bindable_settings_obj.
  - destruct (Hx w eq_refl Hnx Hso) as (w' & msg & ->). eauto.
Qed.

(** X6. Validity is exactly what the walk needs. For a tree made of
    [None], [Ellipsis], bools, ints, floats, strings, tuples, lists and
    settings objects in which no setting entry is named [_settings_obj],
    [__class__], [__dict__] or [__weakref__], walked in a frame as
    [load_settings] builds it ([process_setting_entry] is the method of
    the class, the store is [None] with no handlers to install or a
    settings object, and [_settings_obj] holds that store), the walk
    returns if and only if the tree is valid (a setting entry, or a tuple
    of valid trees); on a tree that is not valid it raises a
    [TypeError]. *)
Theorem _load_entry_returns_iff_valid (fr : Frame) (t : PyVal) (w : World) :
  frame_ok fr ->
  bindable_tree t ->
  attrs w !! _settings_obj = Some (fr_settings_obj fr) ->
  ((_load_entry fr t w).2 = Returns tt <-> valid_tree t = true) /\
  (valid_tree t = false ->
   exists msg, (_load_entry fr t w).2 = Raises (TypeError msg)).
Proof.
  intros Hfr Hnames Hso.
  assert (valid_tree t = false ->
          exists msg, (_load_entry fr t w).2 = Raises (TypeError msg)) as Hinv.
  { intros Hv. destruct (_load_entry_invalid fr t Hfr w Hv Hnames Hso)
      as (w' & msg & ->). eauto. }
  split; [|exact Hinv]. split.
  - intros Hret. destruct (valid_tree t); [reflexivity|].
    destruct (Hinv eq_refl) as [msg Hmsg]. congruence.
  - intros Hv. by rewrite (_load_entry_valid fr t Hfr w Hv Hnames Hso).
Qed.

Lemma _load_entry_returns_iff_valid_witness :
  let fr := unready_frame example_tree in
  let w := assign _settings_obj PNone (new_world false (PTuple [])) in
  (frame_ok fr /\ bindable_tree example_tree /\
   attrs w !! _settings_obj = Some (fr_settings_obj fr)) /\
  ((_load_entry fr example_tree w).2 = Returns tt
   <-> valid_tree example_tree = true) /\
  (valid_tree example_tree = false ->
   exists msg, (_load_entry fr example_tree w).2 = Raises (TypeError msg)).
Proof.
  cbv zeta.
  assert (frame_ok (unready_frame example_tree)) as Hfr
    by (split; [reflexivity | left; split; reflexivity]).
  assert (bindable_tree example_tree) as Hnames
    by (unfold bindable_tree, bindable; decide_by_computation).
  split; [split; [exact Hfr | split; [exact Hnames | reflexivity]]|].
  apply (_load_entry_returns_iff_valid
           (unready_frame example_tree) example_tree
           (assign _settings_obj PNone (new_world false (PTuple [])))
           Hfr Hnames eq_refl).
Defined.

(** The walk of a valid tree is the walk of its setting entries, one
    after the other. *)
Lemma _load_entry_leaves (fr : Frame) (t : PyVal) :
  valid_tree t = true ->
  forall w, _load_entry fr t w = for_each (_load_leaf fr) (leaves t) w.
Proof.
  induction t using PyVal_ind; intros Hvalid w;
    rewrite _load_entry_unfold;
    rewrite valid_tree_unfold in Hvalid;
    rewrite leaves_unfold;
    match goal with
    | |- context [is_leaf ?e] =>
        destruct (is_leaf e) eqn:E;
        [ rewrite (proj1 (is_leaf_Returns e) E); simpl; unfold bind;
          by destruct (_load_leaf fr e w) as [w' [[]|]]
        | try discriminate ]
    end.
  rewrite (_is_setting_entry_iterable (PTuple items) items eq_refl), E.
  clear E. revert w.
  induction H as [|x items Hx _ IH]; intros w; [reflexivity|].
  simpl in Hvalid. apply andb_prop in Hvalid as [Hvx Hvitems].
  cbn [for_each flat_map]. rewrite for_each_app. unfold bind.
  rewrite (Hx Hvx w).
  destruct (for_each (_load_leaf fr) (leaves x) w) as [w' [[]|e]];
    [by apply IH | reflexivity].
Qed.

(** What [process_setting_entry] binds and returns depends on the
    attributes of the object and on the settings of the host only. *)
Lemma process_setting_entry_ext (entry : PyVal) (w1 w2 : World) :
  attrs w1 = attrs w2 ->
  settings_get w1 = settings_get w2 ->
  attrs (process_setting_entry entry w1).1
  = attrs (process_setting_entry entry w2).1 /\
  settings_get (process_setting_entry entry w1).1
  = settings_get (process_setting_entry entry w2).1 /\
  (process_setting_entry entry w1).2 = (process_setting_entry entry w2).2.
Proof.
  intros Ha Hg. unfold process_setting_entry, getattr. run_monad.
  rewrite Ha.
  destruct (attrs w2 !! _settings_obj) as [so|]; [|done].
  destruct (unpack3 entry) as [[[x k] d]|]; [|done].
  destruct so; simpl; try done; rewrite ?Hg;
    match goal with
    | |- context [setattr ?x ?v w1] =>
        destruct (setattr_cases x v) as [[e He]|(a & _ & _ & He)];
        rewrite !He; simpl; by rewrite ?Ha
    end.
Qed.

(** So does the walk of the setting entries, in frames that differ in the
    tree the shared handler would reload. *)
Lemma for_each_load_leaf_ext (fr1 fr2 : Frame) (entries : list PyVal) :
  fr_process_setting_entry fr1 = fr_process_setting_entry fr2 ->
  fr_settings_obj fr1 = fr_settings_obj fr2 ->
  fr_install_update_handler fr1 = fr_install_update_handler fr2 ->
  forall w1 w2,
    attrs w1 = attrs w2 ->
    settings_get w1 = settings_get w2 ->
    attrs (for_each (_load_leaf fr1) entries w1).1
    = attrs (for_each (_load_leaf fr2) entries w2).1 /\
    (for_each (_load_leaf fr1) entries w1).2
    = (for_each (_load_leaf fr2) entries w2).2.
Proof.
  intros Hm Hso Hinst.
  induction entries as [|entry entries IH]; intros w1 w2 Ha Hg; [done|].
  cbn [for_each]. unfold bind.
  assert (attrs (_load_leaf fr1 entry w1).1 = attrs (_load_leaf fr2 entry w2).1 /\
          settings_get (_load_leaf fr1 entry w1).1
          = settings_get (_load_leaf fr2 entry w2).1 /\
          (_load_leaf fr1 entry w1).2 = (_load_leaf fr2 entry w2).2)
    as (Ha' & Hg' & Ho).
  { unfold _load_leaf. run_monad. rewrite <- Hm, <- Hso, <- Hinst.
    destruct (fr_process_setting_entry fr1); [|done].
    destruct (process_setting_entry_ext entry w1 w2 Ha Hg) as (Ha1 & Hg1 & Ho1).
    destruct (process_setting_entry entry w1) as [w1' [k1|e1]],
             (process_setting_entry entry w2) as [w2' [k2|e2]];
      simpl in *; try discriminate.
    2: { split; [done|]. split; [done|]. congruence. }
    destruct (fr_install_update_handler fr1); [|by repeat split].
    unfold call_add_on_change.
    destruct (fr_settings_obj fr1); by repeat split. }
  destruct (_load_leaf fr1 entry w1) as [w1' [[]|e1]],
           (_load_leaf fr2 entry w2) as [w2' [[]|e2]];
    simpl in *; try discriminate; [by apply IH | by split].
Qed.

Lemma reload_settings_nesting (t1 t2 : PyVal) (install sparse : bool) (w : World) :
  valid_tree t1 = true ->
  valid_tree t2 = true ->
  leaves t1 = leaves t2 ->
  attrs (reload_settings t1 install sparse w).1
  = attrs (reload_settings t2 install sparse w).1 /\
  (reload_settings t1 install sparse w).2
  = (reload_settings t2 install sparse w).2.
Proof.
  intros Hv1 Hv2 Hleaves.
  unfold reload_settings, getmethod, getattr. run_monad.
  destruct (attrs w !! _settings_obj) as [so|]; [|done].
  rewrite !_load_entry_leaves by done. rewrite Hleaves.
  by apply for_each_load_leaf_ext.
Qed.

(** X7. Nesting is grouping only: two valid trees with the same setting
    entries in the same order, however their tuples nest, make a load
    leave the same attributes with the same values, and return or raise
    alike. *)
Theorem load_settings_nesting_irrelevant
        (settings_file : string) (t1 t2 : PyVal)
        (auto_update sparse_update : bool) (w : World) :
  valid_tree t1 = true ->
  valid_tree t2 = true ->
  leaves t1 = leaves t2 ->
  attrs (load_settings settings_file t1 auto_update sparse_update w).1
  = attrs (load_settings settings_file t2 auto_update sparse_update w).1 /\
  (load_settings settings_file t1 auto_update sparse_update w).2
  = (load_settings settings_file t2 auto_update sparse_update w).2.
Proof.
  intros Hv1 Hv2 Hleaves.
  rewrite !load_settings_unfold, !valid_tree_resolve by done. cbv zeta.
  destruct (API_READY w); unfold getmethod; run_monad;
    match goal with
    | |- context [?m !! __reload_settings] => destruct (m !! __reload_settings)
    end; simpl; try done.
  - by apply reload_settings_nesting.
  - destruct (reload_settings_nesting t1 t2 false false
                (assign _settings_obj PNone w) Hv1 Hv2 Hleaves) as [Ha Ho].
    destruct (reload_settings t1 false false (assign _settings_obj PNone w))
      as [w1 [[]|e1]],
      (reload_settings t2 false false (assign _settings_obj PNone w))
      as [w2 [[]|e2]]; simpl in *; try discriminate; by split.
Qed.

Lemma load_settings_nesting_irrelevant_witness :
  let w := new_world true (PTuple []) in
  let file := "Plugin.sublime-settings" in
  (valid_tree example_tree = true /\ valid_tree flat_example_tree = true /\
   leaves example_tree = leaves flat_example_tree) /\
  attrs (load_settings file example_tree true false w).1
  = attrs (load_settings file flat_example_tree true false w).1 /\
  (load_settings file example_tree true false w).2
  = (load_settings file flat_example_tree true false w).2.
Proof.
  cbv zeta. split; [repeat split|].
  apply (load_settings_nesting_irrelevant
           "Plugin.sublime-settings" example_tree flat_example_tree true false
           (new_world true (PTuple [])) eq_refl eq_refl eq_refl).
Defined.

(** ** What a load changes, and what it never does *)

Lemma process_setting_entry_on_change (entry : PyVal) (w : World) :
  on_change (process_setting_entry entry w).1 = on_change w.
Proof.
  unfold process_setting_entry, getattr. run_monad.
  destruct (attrs w !! _settings_obj) as [so|]; [|reflexivity].
  destruct (unpack3 entry) as [[[x k] d]|]; [|reflexivity].
  destruct so; simpl; try reflexivity;
    match goal with
    | |- context [setattr ?x ?v ?w] =>
        destruct (setattr_cases x v) as [[e He]|(a & _ & _ & He)];
        by rewrite He
    end.
Qed.

Lemma _load_leaf_on_change (fr : Frame) (entry : PyVal) (w : World) :
  exists regs,
    on_change (_load_leaf fr entry w).1 = on_change w ++ regs /\
    (fr_install_update_handler fr = false -> regs = []).
Proof.
  unfold _load_leaf. run_monad.
  destruct (fr_process_setting_entry fr);
    [|exists []; by rewrite app_nil_r].
  pose proof (process_setting_entry_on_change entry w) as H.
  destruct (process_setting_entry entry w) as [w' [key|e]]; simpl in H;
    [|exists []; by rewrite app_nil_r].
  destruct (fr_install_update_handler fr);
    [|exists []; by rewrite app_nil_r].
  unfold call_add_on_change.
  destruct (fr_settings_obj fr); simpl; rewrite ?H;
    try (exists []; by rewrite app_nil_r).
  eexists. split; [reflexivity | discriminate].
Qed.

Lemma _load_entry_on_change (fr : Frame) (t : PyVal) (w : World) :
  exists regs,
    on_change (_load_entry fr t w).1 = on_change w ++ regs /\
    (fr_install_update_handler fr = false -> regs = []).
Proof.
  revert w. induction t using PyVal_ind; intros w;
    rewrite _load_entry_unfold;
    try (destruct (_is_setting_entry _) as [[]|];
         [apply _load_leaf_on_change | exists []; by rewrite app_nil_r ..]).
  destruct (_is_setting_entry (PTuple items)) as [[]|];
    [apply _load_leaf_on_change | | exists []; by rewrite app_nil_r].
  revert w. induction H as [|x items Hx _ IH]; intros w;
    [exists []; by rewrite app_nil_r|].
  cbn [for_each]. unfold bind.
  destruct (Hx w) as (regs1 & H1 & Hn1).
  destruct (_load_entry fr x w) as [w1 [[]|e]]; simpl in H1.
  - destruct (IH w1) as (regs2 & H2 & Hn2).
    exists (regs1 ++ regs2). split.
    + by rewrite H2, H1, app_assoc.
    + intros Hoff. by rewrite Hn1, Hn2.
  - exists regs1. by split.
Qed.

Lemma reload_settings_on_change (t : PyVal) (install sparse : bool) (w : World) :
  exists regs,
    on_change (reload_settings t install sparse w).1 = on_change w ++ regs /\
    (install = false -> regs = []).
Proof.
  unfold reload_settings, getmethod, getattr. run_monad.
  destruct (attrs w !! _settings_obj); [|exists []; by rewrite app_nil_r].
  apply (_load_entry_on_change
           (mkFrame _ _ t install sparse) t w).
Qed.

(** Everything a call of [load_settings] does to the world, whatever the
    tree and whether it returns or raises. *)
Lemma load_settings_effects (settings_file : string) (entry_tree : PyVal)
      (auto_update sparse_update : bool) (w : World) :
  let t := resolve_tree w entry_tree in
  let after := load_settings settings_file entry_tree auto_update sparse_update w in
  only_binds (_settings_obj :: leaf_names t) w
             (mkWorld (attrs after.1) (setting_entries after.1)
                      (API_READY after.1) (settings_get after.1)
                      (on_change after.1) (timeouts w)) /\
  (exists regs,
      on_change after.1 = on_change w ++ regs /\
      (API_READY w = false \/ auto_update = false -> regs = [])) /\
  timeouts after.1
  = timeouts w ++
    (if API_READY w then []
     else match after.2 with
          | Returns _ =>
              [(Loader settings_file t auto_update sparse_update, 500%Z)]
          | Raises _ => []
          end).
Proof.
  intros t after. subst after. rewrite load_settings_unfold. fold t. cbv zeta.
  assert (forall v, only_binds (_settings_obj :: leaf_names t) w
                               (assign _settings_obj v w)) as Hassign.
  { intros v. split; [|done]. intros n Hn. simpl.
    apply lookup_insert_ne. intros <-. apply Hn, list_elem_of_here. }
  assert (forall v install sparse,
             only_binds (_settings_obj :: leaf_names t) w
               (reload_settings t install sparse (assign _settings_obj v w)).1)
    as Hreload.
  { intros v install sparse.
    apply (only_binds_trans [_settings_obj] (leaf_names t) w
                            (assign _settings_obj v w)).
    - apply only_binds_assign.
    - apply reload_settings_only_binds. }
  destruct (API_READY w); unfold getmethod; run_monad.
  - match goal with
    | |- context [?m !! __reload_settings] => destruct (m !! __reload_settings)
    end; simpl.
    + split; [|split].
      * destruct (Hassign (PSettings settings_file)) as (Ha & _). by split.
      * exists []. by rewrite app_nil_r.
      * by rewrite app_nil_r.
    + specialize (Hreload (PSettings settings_file) auto_update sparse_update).
      destruct (reload_settings_on_change t auto_update sparse_update
                  (assign _settings_obj (PSettings settings_file) w))
        as (regs & Hregs & Hoff).
      destruct Hreload as (Ha & Ht & Hr & Hg & He).
      split; [|split].
      * by split.
      * exists regs. split; [exact Hregs|]. intros [Hx|Hx]; [discriminate|auto].
      * by rewrite Ht, app_nil_r.
  - match goal with
    | |- context [?m !! __reload_settings] => destruct (m !! __reload_settings)
    end; simpl.
    + split; [|split].
      * destruct (Hassign PNone) as (Ha & _). by split.
      * exists []. by rewrite app_nil_r.
      * by rewrite app_nil_r.
    + specialize (Hreload PNone false false).
      destruct (reload_settings_on_change t false false
                  (assign _settings_obj PNone w))
        as (regs & Hregs & Hoff).
      destruct Hreload as (Ha & Ht & Hr & Hg & He).
      rewrite (Hoff eq_refl), app_nil_r in Hregs.
      destruct (reload_settings t false false (assign _settings_obj PNone w))
        as [w' [[]|e]]; simpl in *.
      * split; [by split|]. split; [exists []; by rewrite app_nil_r|].
        by rewrite Ht.
      * split; [by split|]. split; [exists []; by rewrite app_nil_r|].
        by rewrite Ht, app_nil_r.
Qed.

(** X8. A call of [load_settings], whatever the tree and whether it
    returns or raises, changes no attribute but [_settings_obj] and those
    the setting entries of the tree name, leaves the readiness flag, the
    settings of the host and the declared [setting_entries] as they were,
    and only adds to the registered handlers and to the scheduled
    timeouts. *)
Theorem load_settings_frame (settings_file : string) (entry_tree : PyVal)
        (auto_update sparse_update : bool) (w : World) :
  let t := resolve_tree w entry_tree in
  let w' := (load_settings settings_file entry_tree auto_update sparse_update w).1 in
  (forall n, n ∉ _settings_obj :: leaf_names t -> attrs w' !! n = attrs w !! n) /\
  API_READY w' = API_READY w /\
  settings_get w' = settings_get w /\
  setting_entries w' = setting_entries w /\
  on_change w `prefix_of` on_change w' /\
  timeouts w `prefix_of` timeouts w'.
Proof.
  intros t w'. subst w'.
  destruct (load_settings_effects settings_file entry_tree auto_update
              sparse_update w) as ((Ha & _ & Hr & Hg & He) & (regs & Hregs & _) & Ht).
  simpl in *. fold t in Ha.
  split; [exact Ha|]. split; [exact Hr|]. split; [exact Hg|].
  split; [exact He|]. split.
  - rewrite Hregs. by apply prefix_app_r.
  - rewrite Ht. by apply prefix_app_r.
Qed.

(** X9. Without [auto_update], and while the host API is not ready even
    with it, a call of [load_settings] registers no change handler,
    whatever the tree and whether it returns or raises. *)
Theorem load_settings_registers_nothing (settings_file : string) (entry_tree : PyVal)
        (auto_update sparse_update : bool) (w : World) :
  API_READY w = false \/ auto_update = false ->
  on_change (load_settings settings_file entry_tree auto_update sparse_update w).1
  = on_change w.
Proof.
  intros Hoff.
  destruct (load_settings_effects settings_file entry_tree auto_update
              sparse_update w) as (_ & (regs & Hregs & Hnil) & _).
  simpl in *. by rewrite Hregs, (Hnil Hoff), app_nil_r.
Qed.

Lemma load_settings_registers_nothing_witness :
  let w := new_world false (PTuple []) in
  (API_READY w = false \/ true = false) /\
  on_change (load_settings "Plugin.sublime-settings" example_tree true true w).1
  = on_change w.
Proof.
  cbv zeta. split; [by left|].
  apply (load_settings_registers_nothing
           "Plugin.sublime-settings" example_tree true true
           (new_world false (PTuple [])) (or_introl eq_refl)).
Defined.

(** X10. A call of [load_settings] schedules a timeout in one case only:
    the host API is not ready and the walk returned; then it is the one
    retry, with the delay 500. A call made when the API is ready, and a
    call that raises, schedule nothing. *)
Theorem load_settings_timeouts (settings_file : string) (entry_tree : PyVal)
        (auto_update sparse_update : bool) (w : World) :
  let t := resolve_tree w entry_tree in
  let after := load_settings settings_file entry_tree auto_update sparse_update w in
  timeouts after.1
  = timeouts w ++
    (if API_READY w then []
     else match after.2 with
          | Returns _ =>
              [(Loader settings_file t auto_update sparse_update, 500%Z)]
          | Raises _ => []
          end).
Proof.
  intros t after.
  exact (proj2 (proj2 (load_settings_effects settings_file entry_tree
                         auto_update sparse_update w))).
Qed.

(** ** Loads one after the other *)

Lemma names_cons (e : PyVal) (entries : list PyVal) :
  names (e :: entries)
  = match fields e with
    | Some f => attribute_of f :: names entries
    | None => names entries
    end.
Proof. unfold names. simpl. by destruct (fields e). Qed.

(** The last entry of a list that names a given attribute. *)
Lemma names_last (entries : list PyVal) (n : string) :
  n ∈ names entries ->
  exists pre e post f,
    entries = pre ++ e :: post /\ fields e = Some f /\
    attribute_of f = n /\ n ∉ names post.
Proof.
  induction entries as [|e entries IH]; [by intros ?%elem_of_nil|].
  intros Hin. destruct (decide (n ∈ names entries)) as [Hrest|Hrest].
  - destruct (IH Hrest) as (pre & e' & post & f & -> & Hf & Ha & Hpost).
    by exists (e :: pre), e', post, f.
  - rewrite names_cons in Hin. destruct (fields e) as [f|] eqn:Hf; [|done].
    apply elem_of_cons in Hin as [->|Hin]; [|done].
    by exists [], e, entries, f.
Qed.

Lemma elem_of_names (entry : PyVal) (entries : list PyVal) a k d :
  entry ∈ entries -> fields entry = Some (a, k, d) -> a ∈ names entries.
Proof.
  intros Hin Hf. unfold names. apply list_elem_of_fmap.
  exists (a, k, d). split; [reflexivity|].
  apply list_elem_of_omap. by exists entry.
Qed.

(** The attributes after the setting entries are bound depend on the
    attributes before only outside the names the entries bind. *)
Lemma foldl_leaf_effect_attrs_ext (fr1 fr2 : Frame) (entries : list PyVal)
      (w1 w2 : World) :
  fr_settings_obj fr1 = fr_settings_obj fr2 ->
  settings_get w1 = settings_get w2 ->
  (forall n, n ∉ names entries -> attrs w1 !! n = attrs w2 !! n) ->
  attrs (foldl (leaf_effect fr1) w1 entries)
  = attrs (foldl (leaf_effect fr2) w2 entries).
Proof.
  intros Hso Hg Hout. apply map_eq. intros n.
  destruct (decide (n ∈ names entries)) as [Hin|Hnot].
  - destruct (names_last entries n Hin) as (pre & e & post & f & -> & Hf & <- & Hpost).
    rewrite !(foldl_leaf_effect_last _ pre post e f) by done.
    destruct f as [[a k] d]. unfold setting_value. by rewrite Hso, Hg.
  - rewrite !foldl_leaf_effect_other by done. by apply Hout.
Qed.

Lemma foldl_leaf_effect_unshadowed (fr : Frame) (t : PyVal) (v : PyVal) (w : World) :
  plain_tree t ->
  unshadowed w ->
  unshadowed (foldl (leaf_effect fr) (assign _settings_obj v w) (leaves t)).
Proof.
  intros Hplain Hw. apply Forall_forall. intros m Hm.
  rewrite foldl_leaf_effect_other.
  - pose proof (unshadowed_lookup w m Hw Hm) as Hnone. simpl.
    rewrite lookup_insert_ne; [done|].
    intros <-. by apply _settings_obj_not_method.
  - by apply plain_tree_methods.
Qed.

(** X11. Loading twice registers twice. Let the host API be ready, the
    methods [load_settings], [process_setting_entry] and
    [__reload_settings] of the object not hidden by instance attributes,
    and the tree valid with no setting entry named [_settings_obj],
    [__class__], [__dict__], [__weakref__], [load_settings],
    [process_setting_entry] or [__reload_settings] (under its mangled
    name). Then a call of [load_settings] with [auto_update] returns, a
    second call on the same tree right after it returns too and leaves
    every attribute as the first call left it, but registers a second
    handler for every setting entry. *)
Theorem load_settings_twice (settings_file : string) (t : PyVal)
        (sparse_update : bool) (w : World) :
  let fr := ready_frame settings_file t true sparse_update in
  let first := load_settings settings_file t true sparse_update w in
  let second := load_settings settings_file t true sparse_update first.1 in
  API_READY w = true ->
  unshadowed w ->
  valid_tree t = true ->
  plain_tree t ->
  first.2 = Returns tt /\
  second.2 = Returns tt /\
  attrs second.1 = attrs first.1 /\
  on_change second.1
  = on_change w ++ registrations settings_file fr (leaves t)
                ++ registrations settings_file fr (leaves t).
Proof.
  intros fr first second Hready Hw Hvalid Hplain.
  pose proof (plain_tree_settings_obj t Hplain) as Hso.
  pose proof (plain_tree_bindable t Hplain) as Hb.
  pose proof (load_settings_ready settings_file t true sparse_update w) as H1.
  cbv zeta in H1. rewrite (valid_tree_resolve w t Hvalid) in H1.
  specialize (H1 Hready Hw Hvalid Hb). fold fr in H1.
  set (w1 := foldl (leaf_effect fr)
                   (assign _settings_obj (PSettings settings_file) w)
                   (leaves t)) in *.
  assert (first = (w1, Returns tt)) as Hfirst by exact H1.
  destruct (foldl_leaf_effect_host fr (leaves t)
              (assign _settings_obj (PSettings settings_file) w))
    as (Hg1 & _ & Hr1 & _). fold w1 in Hg1, Hr1.
  assert (unshadowed w1) as Hw1 by (by apply foldl_leaf_effect_unshadowed).
  pose proof (load_settings_ready settings_file t true sparse_update w1) as H2.
  cbv zeta in H2. rewrite (valid_tree_resolve w1 t Hvalid) in H2.
  specialize (H2 (eq_trans Hr1 Hready) Hw1 Hvalid Hb). fold fr in H2.
  subst second. rewrite Hfirst. cbn [fst snd]. rewrite H2. cbn [fst snd].
  split; [reflexivity|]. split; [reflexivity|]. split.
  - unfold w1 at 2.
    apply foldl_leaf_effect_attrs_ext; [reflexivity|exact Hg1|].
    intros n Hn. simpl.
    destruct (decide (n = _settings_obj)) as [->|Hne].
    + by rewrite !lookup_insert_eq.
    + rewrite lookup_insert_ne by done. unfold w1.
      rewrite foldl_leaf_effect_other by done. simpl.
      by rewrite lookup_insert_ne.
  - rewrite (foldl_leaf_effect_on_change fr _ _ settings_file)
      by (apply leaves_fields || reflexivity).
    simpl. unfold w1.
    rewrite (foldl_leaf_effect_on_change fr _ _ settings_file)
      by (apply leaves_fields || reflexivity).
    simpl. by rewrite <- app_assoc.
Qed.

Lemma load_settings_twice_witness :
  let file := "Plugin.sublime-settings" in
  let w := new_world true (PTuple []) in
  let fr := ready_frame file example_tree true true in
  let first := load_settings file example_tree true true w in
  let second := load_settings file example_tree true true first.1 in
  (API_READY w = true /\ unshadowed w /\ valid_tree example_tree = true /\
   plain_tree example_tree) /\
  first.2 = Returns tt /\
  second.2 = Returns tt /\
  attrs second.1 = attrs first.1 /\
  on_change second.1
  = on_change w ++ registrations file fr (leaves example_tree)
                ++ registrations file fr (leaves example_tree).
Proof.
  cbv zeta.
  assert (plain_tree example_tree) as Hplain
    by (unfold plain_tree; decide_by_computation).
  split.
  - split; [reflexivity|]. split; [apply new_world_unshadowed|].
    split; [reflexivity|exact Hplain].
  - apply (load_settings_twice
             "Plugin.sublime-settings" example_tree true
             (new_world true (PTuple []))
             eq_refl (new_world_unshadowed _ _) eq_refl Hplain).
Defined.

(** X12. Polling ends where a ready load would have. Let the host API be
    not ready, the methods [load_settings], [process_setting_entry] and
    [__reload_settings] of the object not hidden by instance attributes,
    and the resolved tree valid with no setting entry named
    [_settings_obj], [__class__], [__dict__], [__weakref__],
    [load_settings], [process_setting_entry] or [__reload_settings] (under
    its mangled name). When a call of [load_settings] is followed by
    [plugin_loaded] and by its retry, the retry returns, and the
    attributes and the registered handlers are those the same call would
    have left, returning, had the API been ready from the start. *)
Theorem load_settings_retry_converges
        (settings_file : string) (entry_tree : PyVal)
        (auto_update sparse_update : bool) (w : World) :
  let t := resolve_tree w entry_tree in
  let unready := load_settings settings_file entry_tree auto_update sparse_update w in
  let retried :=
    run_callback (Loader settings_file t auto_update sparse_update)
                 (plugin_loaded unready.1) in
  let direct := load_settings settings_file entry_tree auto_update sparse_update
                              (plugin_loaded w) in
  API_READY w = false ->
  unshadowed w ->
  valid_tree t = true ->
  plain_tree t ->
  retried.2 = Returns tt /\
  direct.2 = Returns tt /\
  attrs retried.1 = attrs direct.1 /\
  on_change retried.1 = on_change direct.1.
Proof.
  intros t unready retried direct Hready Hw Hvalid Hplain.
  pose proof (plain_tree_settings_obj t Hplain) as Hso.
  pose proof (plain_tree_bindable t Hplain) as Hb.
  set (fr := ready_frame settings_file t auto_update sparse_update).
  assert (unready = (after_unready_load settings_file t auto_update sparse_update w,
                     Returns tt)) as Hunready
    by (by apply load_settings_unready).
  set (w1 := after_unready_load settings_file t auto_update sparse_update w) in *.
  assert (unshadowed w1) as Hw1 by (by apply after_unready_load_unshadowed).
  destruct (after_unready_load_host settings_file t auto_update sparse_update w)
    as (Hr1 & Hg1 & Ht1). fold w1 in Hr1, Hg1, Ht1.
  assert (retried = (foldl (leaf_effect fr)
                           (assign _settings_obj (PSettings settings_file)
                                   (plugin_loaded w1)) (leaves t),
                     Returns tt)) as Hretried.
  { subst retried. rewrite Hunready. cbn [fst].
    rewrite run_callback_Loader by exact Hw1.
    pose proof (load_settings_ready settings_file t auto_update sparse_update
                  (plugin_loaded w1)) as H.
    cbv zeta in H. rewrite (valid_tree_resolve _ t Hvalid) in H.
    by apply H. }
  assert (direct = (foldl (leaf_effect fr)
                          (assign _settings_obj (PSettings settings_file)
                                  (plugin_loaded w)) (leaves t),
                    Returns tt)) as Hdirect.
  { subst direct.
    by apply (load_settings_ready settings_file entry_tree auto_update
                sparse_update (plugin_loaded w)). }
  rewrite Hretried, Hdirect. cbn [fst snd].
  split; [reflexivity|]. split; [reflexivity|]. split.
  - apply foldl_leaf_effect_attrs_ext; [reflexivity|exact Hg1|].
    intros n Hn. simpl.
    destruct (decide (n = _settings_obj)) as [->|Hne].
    + by rewrite !lookup_insert_eq.
    + rewrite !lookup_insert_ne by done.
      rewrite foldl_leaf_effect_other by done. simpl.
      by rewrite lookup_insert_ne.
  - rewrite !(foldl_leaf_effect_on_change fr _ _ settings_file)
      by (apply leaves_fields || reflexivity).
    simpl. f_equal.
    destruct (load_settings_effects settings_file entry_tree auto_update
                sparse_update w) as (_ & (regs & Hregs & Hnil) & _).
    simpl in Hregs. fold unready in Hregs. rewrite Hunready in Hregs.
    cbn [fst] in Hregs. rewrite (Hnil (or_introl Hready)), app_nil_r in Hregs.
    exact Hregs.
Qed.

Lemma load_settings_retry_converges_witness :
  let file := "Plugin.sublime-settings" in
  let w := new_world false example_tree in
  let t := resolve_tree w PNone in
  let unready := load_settings file PNone true false w in
  let retried := run_callback (Loader file t true false) (plugin_loaded unready.1) in
  let direct := load_settings file PNone true false (plugin_loaded w) in
  (API_READY w = false /\ unshadowed w /\ valid_tree t = true /\ plain_tree t) /\
  retried.2 = Returns tt /\
  direct.2 = Returns tt /\
  attrs retried.1 = attrs direct.1 /\
  on_change retried.1 = on_change direct.1.
Proof.
  cbv zeta.
  assert (plain_tree (resolve_tree (new_world false example_tree) PNone))
    as Hplain by (unfold plain_tree; decide_by_computation).
  split.
  - split; [reflexivity|]. split; [apply new_world_unshadowed|].
    split; [reflexivity|exact Hplain].
  - apply (load_settings_retry_converges
             "Plugin.sublime-settings" PNone true false
             (new_world false example_tree)
             eq_refl (new_world_unshadowed _ _) eq_refl Hplain).
Defined.

(** ** Sparse handlers after an edit *)

Lemma load_settings_ready_settings_obj
      (settings_file : string) (t : PyVal) (auto_update sparse_update : bool)
      (w : World) :
  _settings_obj ∉ leaf_names t ->
  attrs (foldl (leaf_effect (ready_frame settings_file t auto_update sparse_update))
               (assign _settings_obj (PSettings settings_file) w) (leaves t))
    !! _settings_obj
  = Some (PSettings settings_file).
Proof.
  intros Hso. rewrite foldl_leaf_effect_other by done. apply lookup_insert_eq.
Qed.

(** X13. Let the host API be ready, the methods [load_settings],
    [process_setting_entry] and [__reload_settings] of the object not
    hidden by instance attributes, and the tree valid with no setting
    entry named [_settings_obj], [__class__], [__dict__] or
    [__weakref__]. After a load of the tree with [auto_update] and
    [sparse_update], every setting entry of the tree has its own handler
    registered under the entry as token; and after any edit of the
    settings, calling that handler binds the attribute of the entry to
    what the edited store answers for its key, returns, and changes
    nothing else. *)
Theorem sparse_handler_refreshes
        (settings_file : string) (t : PyVal) (w : World)
        (get : string -> PyVal -> PyVal -> PyVal) (now : float)
        (entry : PyVal) attribute key default :
  let w1 := (load_settings settings_file t true true w).1 in
  API_READY w = true ->
  unshadowed w ->
  valid_tree t = true ->
  bindable_tree t ->
  entry ∈ leaves t ->
  fields entry = Some (attribute, key, default) ->
  (settings_file, entry, SparseHandler entry) ∈ on_change w1 /\
  run_handler (SparseHandler entry) now (edit_store get w1)
  = (assign attribute (get settings_file (setting_key attribute key) default)
            (edit_store get w1),
     Returns tt).
Proof.
  intros w1 Hready Hw Hvalid Hb Hin Hf.
  pose proof (bindable_settings_obj _ Hb) as Hso.
  pose proof (load_settings_ready settings_file t true true w) as H.
  cbv zeta in H. rewrite (valid_tree_resolve w t Hvalid) in H.
  specialize (H Hready Hw Hvalid Hb).
  subst w1. rewrite H. cbn [fst]. split.
  - rewrite (foldl_leaf_effect_on_change _ _ _ settings_file)
      by (apply leaves_fields || reflexivity).
    simpl. apply elem_of_app. right.
    apply list_elem_of_fmap. exists entry. by split.
  - unfold run_handler. run_monad.
    rewrite (process_setting_entry_leaf entry attribute key default
               (PSettings settings_file)); [reflexivity|exact Hf| | |right; eauto].
    + apply (bindable_special (leaf_names t)); [exact Hb|].
      rewrite leaf_names_names. by apply (elem_of_names entry _ attribute key default).
    + simpl. by apply load_settings_ready_settings_obj.
Qed.

Lemma sparse_handler_refreshes_witness :
  let file := "Plugin.sublime-settings" in
  let w := new_world true (PTuple []) in
  let entry := PTuple [PStr "size"; PStr "font_size"; PInt 10] in
  let w1 := (load_settings file example_tree true true w).1 in
  (API_READY w = true /\ unshadowed w /\ valid_tree example_tree = true /\
   bindable_tree example_tree /\
   entry ∈ leaves example_tree /\
   fields entry = Some ("size", PStr "font_size", PInt 10)) /\
  (file, entry, SparseHandler entry) ∈ on_change w1 /\
  run_handler (SparseHandler entry) 5 (edit_store (store_get edited_files) w1)
  = (assign "size"
            (store_get edited_files file (setting_key "size" (PStr "font_size"))
                       (PInt 10))
            (edit_store (store_get edited_files) w1),
     Returns tt).
Proof.
  cbv zeta.
  assert (bindable_tree example_tree) as Hnames
    by (unfold bindable_tree, bindable; decide_by_computation).
  assert (PTuple [PStr "size"; PStr "font_size"; PInt 10] ∈ leaves example_tree)
    as Hin by (vm_compute; apply list_elem_of_here).
  split.
  - split; [reflexivity|]. split; [apply new_world_unshadowed|].
    split; [reflexivity|]. split; [exact Hnames|]. split; [exact Hin|reflexivity].
  - apply (sparse_handler_refreshes
             "Plugin.sublime-settings" example_tree
             (new_world true (PTuple [])) (store_get edited_files) 5
             (PTuple [PStr "size"; PStr "font_size"; PInt 10])
             "size" (PStr "font_size") (PInt 10)
             eq_refl (new_world_unshadowed _ _) eq_refl Hnames Hin eq_refl).
Defined.

(** Calling the sparse handlers of a list of setting entries binds the
    entries one after the other. *)
Lemma notify_all_sparse (settings_file : string) (fr fr0 : Frame)
      (entries : list PyVal) (now : float) :
  fr_sparse fr = true ->
  fr_settings_obj fr0 = PSettings settings_file ->
  fr_install_update_handler fr0 = false ->
  Forall (fun e => is_Some (fields e)) entries ->
  forall w,
    bindable (names entries) ->
    attrs w !! _settings_obj = Some (PSettings settings_file) ->
    notify_all (registrations settings_file fr entries) now w
    = foldl (leaf_effect fr0) w entries.
Proof.
  intros Hsparse Hso0 Hoff. unfold registrations, handler_of. rewrite Hsparse.
  induction 1 as [|e entries [[[a k] d] Hf] _ IH];
    intros w Hnames Hattr; [reflexivity|].
  rewrite names_cons, Hf in Hnames.
  apply (bindable_app [a]) in Hnames as [Ha Hnames].
  assert (a ∉ special_attributes) as Hspecial
    by (apply (bindable_special [a]); [exact Ha | apply list_elem_of_here]).
  assert (_settings_obj <> a) as Hne.
  { intros <-. apply (bindable_settings_obj _ Ha), list_elem_of_here. }
  cbn [fmap list_fmap notify_all foldl].
  assert ((run_handler (SparseHandler e) now w).1 = leaf_effect fr0 w e) as ->.
  { unfold run_handler. run_monad.
    rewrite (process_setting_entry_leaf e a k d (PSettings settings_file))
      by (done || right; eauto).
    unfold leaf_effect. by rewrite Hf, Hoff, Hso0. }
  apply IH; [exact Hnames|].
  rewrite leaf_effect_attrs, Hf. simpl. by rewrite lookup_insert_ne.
Qed.

(** X14. Sparse handlers add up to a reload. Let the host API be ready,
    the methods [load_settings], [process_setting_entry] and
    [__reload_settings] of the object not hidden by instance attributes,
    and the tree valid with no setting entry named [_settings_obj],
    [__class__], [__dict__] or [__weakref__]. After a load of the tree
    with [auto_update] and [sparse_update], which registers one handler
    for each setting entry in the order of the walk, and any edit of the
    settings, calling those handlers in that order leaves the attributes
    a load from the edited settings would have left. *)
Theorem sparse_handlers_reload
        (settings_file : string) (t : PyVal) (w : World)
        (get : string -> PyVal -> PyVal -> PyVal) (now : float) :
  let fr := ready_frame settings_file t true true in
  let w1 := (load_settings settings_file t true true w).1 in
  API_READY w = true ->
  unshadowed w ->
  valid_tree t = true ->
  bindable_tree t ->
  on_change w1 = on_change w ++ registrations settings_file fr (leaves t) /\
  attrs (notify_all (registrations settings_file fr (leaves t)) now
                    (edit_store get w1))
  = attrs (load_settings settings_file t true true (edit_store get w)).1.
Proof.
  intros fr w1 Hready Hw Hvalid Hb.
  pose proof (bindable_settings_obj _ Hb) as Hso.
  pose proof (load_settings_ready settings_file t true true w) as H1.
  cbv zeta in H1. rewrite (valid_tree_resolve w t Hvalid) in H1.
  specialize (H1 Hready Hw Hvalid Hb).
  pose proof (load_settings_ready settings_file t true true (edit_store get w))
    as H2.
  cbv zeta in H2. rewrite (valid_tree_resolve _ t Hvalid) in H2.
  specialize (H2 Hready Hw Hvalid Hb).
  subst w1. rewrite H1, H2. cbn [fst]. fold fr. split.
  { rewrite (foldl_leaf_effect_on_change fr _ _ settings_file)
      by (apply leaves_fields || reflexivity).
    reflexivity. }
  set (w1 := foldl (leaf_effect fr)
                   (assign _settings_obj (PSettings settings_file) w)
                   (leaves t)).
  rewrite (notify_all_sparse settings_file fr
             (mkFrame Method (PSettings settings_file) t false false))
    by (try reflexivity; try apply leaves_fields; try exact Hb;
        simpl; by apply load_settings_ready_settings_obj).
  apply foldl_leaf_effect_attrs_ext; [reflexivity|reflexivity|].
  intros n Hn. simpl. unfold w1.
  rewrite foldl_leaf_effect_other by done. reflexivity.
Qed.

Lemma sparse_handlers_reload_witness :
  let file := "Plugin.sublime-settings" in
  let w := new_world true (PTuple []) in
  let get := store_get edited_files in
  let fr := ready_frame file example_tree true true in
  let w1 := (load_settings file example_tree true true w).1 in
  (API_READY w = true /\ unshadowed w /\ valid_tree example_tree = true /\
   bindable_tree example_tree) /\
  on_change w1 = on_change w ++ registrations file fr (leaves example_tree) /\
  attrs (notify_all (registrations file fr (leaves example_tree)) 5
                    (edit_store get w1))
  = attrs (load_settings file example_tree true true (edit_store get w)).1.
Proof.
  cbv zeta.
  assert (bindable_tree example_tree) as Hnames
    by (unfold bindable_tree, bindable; decide_by_computation).
  split.
  - split; [reflexivity|]. split; [apply new_world_unshadowed|].
    split; [reflexivity|exact Hnames].
  - apply (sparse_handlers_reload
             "Plugin.sublime-settings" example_tree
             (new_world true (PTuple [])) (store_get edited_files) 5
             eq_refl (new_world_unshadowed _ _) eq_refl Hnames).
Defined.

(** ** The timestamp of the debounced reload *)

(** X15. No load records the timestamp the debounced reload compares
    with: on an object that has none, after any call of [load_settings]
    whose tree has no setting entry named [_settings_update_time], a call
    of [__delay_reload_settings] raises [AttributeError] and changes
    nothing. *)
Theorem delay_reload_settings_after_load
        (settings_file : string) (entry_tree : PyVal)
        (auto_update sparse_update : bool) (w : World) (now : float) :
  let w' := (load_settings settings_file entry_tree auto_update sparse_update w).1 in
  attrs w !! _settings_update_time = None ->
  _settings_update_time ∉ leaf_names (resolve_tree w entry_tree) ->
  delay_reload_settings [] now w'
  = (w', Raises (AttributeError "DeclarativeSettingsMixin" _settings_update_time)).
Proof.
  intros w' Hnone Hnames.
  destruct (load_settings_effects settings_file entry_tree auto_update
              sparse_update w) as ((Ha & _) & _).
  simpl in Ha. fold w' in Ha.
  assert (attrs w' !! _settings_update_time = None) as Hnone'.
  { rewrite Ha; [exact Hnone|].
    apply not_elem_of_cons. split; [done|exact Hnames]. }
  unfold delay_reload_settings, getattr. run_monad. by rewrite Hnone'.
Qed.

Lemma delay_reload_settings_after_load_witness :
  let w := new_world true (PTuple []) in
  let w' := (load_settings "Plugin.sublime-settings" example_tree true false w).1 in
  (attrs w !! _settings_update_time = None /\
   _settings_update_time ∉ leaf_names (resolve_tree w example_tree)) /\
  delay_reload_settings [] 5 w'
  = (w', Raises (AttributeError "DeclarativeSettingsMixin" _settings_update_time)).
Proof.
  cbv zeta.
  assert (_settings_update_time
            ∉ leaf_names (resolve_tree (new_world true (PTuple [])) example_tree))
    as Hnames by decide_by_computation.
  split; [split; [reflexivity|exact Hnames]|].
  apply (delay_reload_settings_after_load
           "Plugin.sublime-settings" example_tree true false
           (new_world true (PTuple [])) 5 eq_refl Hnames).
Defined.

(** ** Defaults without the store, and attributes that stay *)

(** With [None] for the store, what [process_setting_entry] binds and
    returns depends on the attributes of the object only. *)
Lemma process_setting_entry_None (entry : PyVal) (w1 w2 : World) :
  attrs w1 = attrs w2 ->
  attrs w2 !! _settings_obj = Some PNone ->
  _settings_obj ∉ names [entry] ->
  attrs (process_setting_entry entry w1).1
  = attrs (process_setting_entry entry w2).1 /\
  attrs (process_setting_entry entry w2).1 !! _settings_obj = Some PNone /\
  (process_setting_entry entry w1).2 = (process_setting_entry entry w2).2.
Proof.
  intros Ha Hso Hne. unfold process_setting_entry, getattr. run_monad.
  rewrite Ha, Hso.
  destruct (unpack3 entry) as [[[x k] d]|] eqn:E; [|done].
  destruct (setattr_cases x d) as [[e He]|(a & -> & _ & He)];
    rewrite !He; simpl; [done|].
  split; [by rewrite Ha|]. split; [|done].
  rewrite lookup_insert_ne; [exact Hso|].
  intros ->. apply Hne. apply unpack3_fields in E.
  unfold names. simpl. rewrite E. apply list_elem_of_here.
Qed.

Lemma for_each_load_leaf_None (fr : Frame) (entries : list PyVal) :
  fr_install_update_handler fr = false ->
  _settings_obj ∉ names entries ->
  forall w1 w2,
    attrs w1 = attrs w2 ->
    attrs w2 !! _settings_obj = Some PNone ->
    attrs (for_each (_load_leaf fr) entries w1).1
    = attrs (for_each (_load_leaf fr) entries w2).1 /\
    (for_each (_load_leaf fr) entries w1).2
    = (for_each (_load_leaf fr) entries w2).2.
Proof.
  intros Hoff.
  induction entries as [|entry entries IH]; intros Hnames w1 w2 Ha Hso; [done|].
  change (entry :: entries) with ([entry] ++ entries) in Hnames.
  rewrite names_app in Hnames. apply not_elem_of_app in Hnames as [Hne Hnames].
  cbn [for_each]. unfold bind.
  assert (attrs (_load_leaf fr entry w1).1 = attrs (_load_leaf fr entry w2).1 /\
          ((_load_leaf fr entry w2).2 = Returns tt ->
           attrs (_load_leaf fr entry w2).1 !! _settings_obj = Some PNone) /\
          (_load_leaf fr entry w1).2 = (_load_leaf fr entry w2).2)
    as (Ha' & Hso' & Ho).
  { unfold _load_leaf. rewrite Hoff. run_monad.
    destruct (fr_process_setting_entry fr); [|done].
    destruct (process_setting_entry_None entry w1 w2 Ha Hso Hne)
      as (Ha1 & Hso1 & Ho1).
    destruct (process_setting_entry entry w1) as [w1' [k1|e1]],
             (process_setting_entry entry w2) as [w2' [k2|e2]];
      simpl in *; try discriminate; [done|].
    split; [done|]. split; [done|congruence]. }
  destruct (_load_leaf fr entry w1) as [w1' [[]|e1]],
           (_load_leaf fr entry w2) as [w2' [[]|e2]];
    simpl in *; try discriminate; [|by split].
  apply IH; [exact Hnames | exact Ha' | by apply Hso'].
Qed.

(** X16. While the host API is not ready the settings are not consulted:
    for a valid tree with no setting entry named [_settings_obj], on an
    object whose methods are not hidden by instance attributes, the
    attributes a call of [load_settings] leaves are the same whatever the
    settings of the host hold. *)
Theorem load_settings_unready_ignores_store
        (settings_file : string) (entry_tree : PyVal)
        (auto_update sparse_update : bool) (w : World)
        (get : string -> PyVal -> PyVal -> PyVal) :
  let t := resolve_tree w entry_tree in
  API_READY w = false ->
  unshadowed w ->
  valid_tree t = true ->
  _settings_obj ∉ leaf_names t ->
  attrs (load_settings settings_file entry_tree auto_update sparse_update
                       (edit_store get w)).1
  = attrs (load_settings settings_file entry_tree auto_update sparse_update w).1.
Proof.
  intros t Hready Hw Hvalid Hso.
  rewrite !load_settings_unfold. cbv zeta.
  change (resolve_tree (edit_store get w) entry_tree) with t.
  change (API_READY (edit_store get w)) with (API_READY w).
  rewrite Hready. fold t.
  assert (forall w0 m,
             attrs w0 = attrs w -> m ∈ methods ->
             attrs (assign _settings_obj PNone w0) !! m = None) as Hm.
  { intros w0 m Hw0 Hin. simpl. rewrite Hw0, lookup_insert_ne.
    - by apply unshadowed_lookup.
    - intros <-. by apply _settings_obj_not_method. }
  assert (forall w0, attrs (assign _settings_obj PNone w0) !! _settings_obj
                     = Some PNone) as Hnone
    by (intros w0; apply lookup_insert_eq).
  unfold getmethod, reload_settings, getattr. run_monad.
  rewrite !lookup_insert_ne by done.
  rewrite (unshadowed_lookup w __reload_settings Hw) by in_methods.
  cbv beta iota. rewrite !Hnone.
  rewrite !(Hm _ "process_setting_entry") by (reflexivity || in_methods).
  rewrite !_load_entry_leaves by done.
  rewrite leaf_names_names in Hso.
  destruct (for_each_load_leaf_None (mkFrame Method PNone t false false)
              (leaves t) eq_refl Hso
              (assign _settings_obj PNone (edit_store get w))
              (assign _settings_obj PNone w) eq_refl (lookup_insert_eq _ _ _))
    as [Ha Ho].
  destruct (for_each _ _ (assign _settings_obj PNone (edit_store get w)))
    as [w1 [[]|e1]],
    (for_each _ _ (assign _settings_obj PNone w)) as [w2 [[]|e2]];
    simpl in *; try discriminate; done.
Qed.

Lemma load_settings_unready_ignores_store_witness :
  let file := "Plugin.sublime-settings" in
  let w := new_world false (PTuple []) in
  let get := store_get edited_files in
  (API_READY w = false /\ unshadowed w /\
   valid_tree (resolve_tree w example_tree) = true /\
   _settings_obj ∉ leaf_names (resolve_tree w example_tree)) /\
  attrs (load_settings file example_tree true true (edit_store get w)).1
  = attrs (load_settings file example_tree true true w).1.
Proof.
  cbv zeta.
  assert (_settings_obj
            ∉ leaf_names (resolve_tree (new_world false (PTuple [])) example_tree))
    as Hnames by decide_by_computation.
  split.
  - split; [reflexivity|]. split; [apply new_world_unshadowed|].
    split; [reflexivity|exact Hnames].
  - apply (load_settings_unready_ignores_store
             "Plugin.sublime-settings" example_tree true true
             (new_world false (PTuple [])) (store_get edited_files)
             eq_refl (new_world_unshadowed _ _) eq_refl Hnames).
Defined.

Lemma keeps_attributes_refl (w : World) : keeps_attributes w w.
Proof. by intros n. Qed.

Lemma keeps_attributes_trans (w1 w2 w3 : World) :
  keeps_attributes w1 w2 -> keeps_attributes w2 w3 -> keeps_attributes w1 w3.
Proof. intros H12 H23 n Hn. by apply H23, H12. Qed.

Lemma keeps_attributes_assign (a : string) (v : PyVal) (w : World) :
  keeps_attributes w (assign a v w).
Proof.
  intros n Hn. simpl. destruct (decide (a = n)) as [->|Hne].
  - rewrite lookup_insert_eq. by eexists.
  - by rewrite lookup_insert_ne.
Qed.

Lemma process_setting_entry_keeps (entry : PyVal) (w : World) :
  keeps_attributes w (process_setting_entry entry w).1.
Proof.
  unfold process_setting_entry, getattr. run_monad.
  destruct (attrs w !! _settings_obj) as [so|]; [|apply keeps_attributes_refl].
  destruct (unpack3 entry) as [[[x k] d]|]; [|apply keeps_attributes_refl].
  destruct so; simpl; try apply keeps_attributes_refl;
    match goal with
    | |- context [setattr ?x ?v ?w] =>
        destruct (setattr_cases x v) as [[e He]|(a & _ & _ & He)];
        rewrite He; simpl;
        first [apply keeps_attributes_assign | apply keeps_attributes_refl]
    end.
Qed.

Lemma _load_leaf_keeps (fr : Frame) (entry : PyVal) (w : World) :
  keeps_attributes w (_load_leaf fr entry w).1.
Proof.
  unfold _load_leaf. run_monad.
  destruct (fr_process_setting_entry fr); [|apply keeps_attributes_refl].
  pose proof (process_setting_entry_keeps entry w) as H.
  destruct (process_setting_entry entry w) as [w' [key|e]]; [|exact H].
  simpl in H. destruct (fr_install_update_handler fr); [|exact H].
  unfold call_add_on_change. destruct (fr_settings_obj fr); exact H.
Qed.

Lemma _load_entry_keeps (fr : Frame) (t : PyVal) (w : World) :
  keeps_attributes w (_load_entry fr t w).1.
Proof.
  revert w. induction t using PyVal_ind; intros w;
    rewrite _load_entry_unfold;
    try (destruct (_is_setting_entry _) as [[]|];
         [apply _load_leaf_keeps | apply keeps_attributes_refl ..]).
  destruct (_is_setting_entry (PTuple items)) as [[]|];
    [apply _load_leaf_keeps | | apply keeps_attributes_refl].
  revert w. induction H as [|x items Hx _ IH]; intros w;
    [apply keeps_attributes_refl|].
  cbn [for_each]. unfold bind. specialize (Hx w).
  destruct (_load_entry fr x w) as [w1 [[]|e]]; simpl in Hx; [|exact Hx].
  eapply keeps_attributes_trans; [exact Hx | apply IH].
Qed.

(** X17. No call of [load_settings] removes an attribute: whatever the
    tree, and whether the call returns or raises, every attribute the
    object had before the call it still has after it. *)
Theorem load_settings_keeps_attributes
        (settings_file : string) (entry_tree : PyVal)
        (auto_update sparse_update : bool) (w : World) :
  keeps_attributes
    w (load_settings settings_file entry_tree auto_update sparse_update w).1.
Proof.
  rewrite load_settings_unfold. cbv zeta.
  set (t := resolve_tree w entry_tree).
  assert (forall v install sparse,
             keeps_attributes
               w (reload_settings t install sparse (assign _settings_obj v w)).1)
    as Hreload.
  { intros v install sparse.
    eapply keeps_attributes_trans; [apply keeps_attributes_assign|].
    unfold reload_settings, getmethod, getattr. run_monad.
    destruct (_ !! _settings_obj); [|apply keeps_attributes_refl].
    apply _load_entry_keeps. }
  destruct (API_READY w); unfold getmethod; run_monad.
  - match goal with
    | |- context [?m !! __reload_settings] => destruct (m !! __reload_settings)
    end; simpl; [apply keeps_attributes_assign | apply Hreload].
  - match goal with
    | |- context [?m !! __reload_settings] => destruct (m !! __reload_settings)
    end; simpl; [apply keeps_attributes_assign|].
    specialize (Hreload PNone false false).
    by destruct (reload_settings t false false (assign _settings_obj PNone w))
      as [w' [[]|e]].
Qed.
